(** * chat-history.py: extraction and rendering of editor chat records

    A shallow embedding of [src/chat-history.py].  The script walks a
    directory tree for [state.vscdb] databases, reads every key/value table,
    classifies the JSON values into conversations and prompts, and appends a
    Markdown rendering to one output document.

    Conventions of the embedding:
    - a Python [str] is the list of its code points ([pystr]);
    - a value produced by [json.loads] is a [pyval];
    - a value stored in a SQLite column is a [sqlval];
    - [bytes.decode('utf-8')] and [json.loads] are library functions and are
      section variables returning [None] where Python raises;
    - a statement that can raise runs in the monad [io], whose state is the
      text written to the open file so far;
    - [print] calls are recorded as [event]s, in call order. *)

From Stdlib Require Import List Bool Arith ZArith NArith Lia.
From Stdlib.Strings Require Import Ascii Byte.
From Stdlib.Strings Require String.
Import String.StringSyntax.
Delimit Scope string_scope with string.
From Stdlib Require Import Floats DecimalString.
Import ListNotations.

Set Implicit Arguments.
Set Warnings "-register-all,-abstract-large-number".

(* ------------------------------------------------------------------ *)
(** ** Python strings *)

Definition pystr := list N.

(** A literal of the source, character by character. *)
Definition lit (s : String.string) : pystr :=
  map N_of_ascii (String.list_ascii_of_string s).
Arguments lit s%_string.

(** JSON text written with ['] where the document has a double quote. *)
Definition json_text (s : String.string) : pystr :=
  map (fun c => if N.eqb c 39 then 34%N else c) (lit s).
Arguments json_text s%_string.

Fixpoint pystr_eqb (a b : pystr) : bool :=
  match a, b with
  | [], [] => true
  | x :: a', y :: b' => N.eqb x y && pystr_eqb a' b'
  | _, _ => false
  end.

(** [str.isspace] on one code point, as used by [str.strip()]. *)
Definition isspace (c : N) : bool :=
  (((9 <=? c) && (c <=? 13)) || ((28 <=? c) && (c <=? 32))
   || (c =? 133) || (c =? 160) || (c =? 5760)
   || ((8192 <=? c) && (c <=? 8202))
   || (c =? 8232) || (c =? 8233) || (c =? 8239) || (c =? 8287)
   || (c =? 12288))%N.

Fixpoint lstrip (s : pystr) : pystr :=
  match s with
  | c :: s' => if isspace c then lstrip s' else s
  | [] => []
  end.

Definition rstrip (s : pystr) : pystr := rev (lstrip (rev s)).

(** [s.strip()] *)
Definition strip (s : pystr) : pystr := rstrip (lstrip s).

(** A surrogate code point has no UTF-8 encoding. *)
Definition is_surrogate (c : N) : bool := ((55296 <=? c) && (c <=? 57343))%N.

(** Whether [s.encode('utf-8')] succeeds. *)
Definition encodable (s : pystr) : bool := forallb (fun c => negb (is_surrogate c)) s.

(** [str(i)] for a non-negative integer. *)
Definition str_of_nat (n : nat) : pystr := lit (NilZero.string_of_uint (Nat.to_uint n)).

(* ------------------------------------------------------------------ *)
(** ** Values *)

(** What [json.loads] returns. A [dict] keeps its items in insertion order. *)
Inductive pyval : Type :=
| PNone
| PBool (b : bool)
| PInt (z : Z)
| PFloat (f : float)
| PStr (s : pystr)
| PList (items : list pyval)
| PDict (items : list (pystr * pyval)).

(** What the [sqlite3] module returns for a column. *)
Inductive sqlval : Type :=
| SqlNull
| SqlInt (z : Z)
| SqlReal (f : float)
| SqlText (s : pystr)
| SqlBlob (b : list byte).

Inductive exn : Type :=
| TypeError
| AttributeError
| UnicodeEncodeError
| FileExistsError.

(** [d.get(k)]: the value stored under [k], if any. *)
Fixpoint dict_get (d : list (pystr * pyval)) (k : pystr) : option pyval :=
  match d with
  | [] => None
  | (k', v) :: d' => if pystr_eqb k' k then Some v else dict_get d' k
  end.

(** [k in d] *)
Definition dict_has (d : list (pystr * pyval)) (k : pystr) : bool :=
  match dict_get d k with Some _ => true | None => false end.

(** [v == 1] *)
Definition eq_one (v : pyval) : bool :=
  match v with
  | PInt z => Z.eqb z 1
  | PBool b => b
  | PFloat f => PrimFloat.eqb f 1%float
  | _ => false
  end.

(** [{'key': key, 'conversation': parsed['conversation']}] *)
Record conversation : Type := mk_conversation {
  conv_key : sqlval;
  conv_conversation : pyval
}.

Definition row : Type := (sqlval * sqlval)%type.

(** One database file as [sqlite3] shows it: the table names of
    [sqlite_master], and for a table name the rows [SELECT key, value]
    returns, or [None] where the statement raises. *)
Record database : Type := mk_database {
  db_tables : list pystr;
  db_rows : pystr -> option (list row)
}.

(** [cursor.execute(f"SELECT key, value FROM {table_name} LIMIT 1000;")]
    followed by [cursor.fetchall()]. *)
Definition fetch_rows (cursor : database) (table_name : pystr) : option (list row) :=
  option_map (firstn 1000) (db_rows cursor table_name).

(* ------------------------------------------------------------------ *)
(** ** The directory tree under the scanned root *)

(** A path below the root, as its components. *)
Definition path := list pystr.

(** A directory entry.  A file carries what [sqlite3] makes of it: [None]
    when connecting to it or reading [sqlite_master] raises. *)
Inductive fsnode : Type :=
| File (name : pystr) (content : option database)
| Dir (name : pystr) (entries : list fsnode).

Definition node_name (n : fsnode) : pystr :=
  match n with
  | File name _ => name
  | Dir name _ => name
  end.

Definition has_entry (entries : list fsnode) (name : pystr) : bool :=
  existsb (fun e => pystr_eqb (node_name e) name) entries.

(** [Path.rglob(pattern)] for a pattern without wildcards, started at
    directory [n] reached through [here]: the directory itself is asked for
    an entry of that name, then every sub-directory in listing order. *)
Fixpoint rglob (pattern : pystr) (here : path) (n : fsnode) : list path :=
  match n with
  | File _ _ => []
  | Dir _ entries =>
      (if has_entry entries pattern then [here ++ [pattern]] else [])
      ++ flat_map (fun e => rglob pattern (here ++ [node_name e]) e) entries
  end.

(** The entry a path leads to. *)
Fixpoint resolve (n : fsnode) (p : path) : option fsnode :=
  match p with
  | [] => Some n
  | c :: p' =>
      match n with
      | File _ _ => None
      | Dir _ entries =>
          match find (fun e => pystr_eqb (node_name e) c) entries with
          | Some e => resolve e p'
          | None => None
          end
      end
  end.

(** [sqlite3.connect(db_path)] and the query of [sqlite_master]. *)
Definition open_database (base : fsnode) (db_path : path) : option database :=
  match resolve base db_path with
  | Some (File _ content) => content
  | _ => None
  end.

(* ------------------------------------------------------------------ *)
(** ** Statements that write to the output file *)

(** The state is the content of the file opened for appending. *)
Definition io (A : Type) : Type := pystr -> pystr * (exn + A).

Definition ret {A : Type} (a : A) : io A := fun buf => (buf, inr a).

Definition raise {A : Type} (e : exn) : io A := fun buf => (buf, inl e).

Definition bind {A B : Type} (c : io A) (k : A -> io B) : io B :=
  fun buf =>
    match c buf with
    | (buf', inr a) => k a buf'
    | (buf', inl e) => (buf', inl e)
    end.

Definition lift {A : Type} (r : exn + A) : io A :=
  match r with
  | inr a => ret a
  | inl e => raise e
  end.

Notation "x <- c ;; k" := (bind c (fun x => k))
  (at level 61, c at next level, right associativity).
Notation "c ;; k" := (bind c (fun _ => k))
  (at level 61, right associativity).

(** [f.write(s)] on a text file with [encoding='utf-8']. *)
Definition f_write (s : pystr) : io unit :=
  fun buf => if encodable s then (buf ++ s, inr tt) else (buf, inl UnicodeEncodeError).

(** [for x in l: body(x)] *)
Fixpoint for_each {A : Type} (l : list A) (body : A -> io unit) : io unit :=
  match l with
  | [] => ret tt
  | x :: l' => body x ;; for_each l' body
  end.

(** The items a [for] loop draws from a value. *)
Definition py_iter (v : pyval) : exn + list pyval :=
  match v with
  | PList items => inr items
  | PDict items => inr (map (fun kv => PStr (fst kv)) items)
  | PStr s => inr (map (fun c => PStr [c]) s)
  | _ => inl TypeError
  end.

(** [message.get(k, default)] *)
Definition py_get (message : pyval) (k : pystr) (default : pyval) : exn + pyval :=
  match message with
  | PDict items =>
      inr (match dict_get items k with Some v => v | None => default end)
  | _ => inl AttributeError
  end.

(** [v.strip()] *)
Definition py_strip (v : pyval) : exn + pystr :=
  match v with
  | PStr s => inr (strip s)
  | _ => inl AttributeError
  end.

(** [enumerate(l, start)] *)
Definition enumerate {A : Type} (l : list A) (start : nat) : list (nat * A) :=
  combine (seq start (length l)) l.

Definition nl : pystr := [10%N].

(** What is printed, in place of the formatted line. *)
Inductive event : Type :=
| Scanning_directory
| Directory_does_not_exist
| No_database_files_found
| Found_database_files (n : nat)
| Scanning_database (db_path : path)
| Searching_for_conversations (table_name : pystr)
| Error_extracting_conversations (table_name : pystr)
| Searching_for_prompts (table_name : pystr)
| Error_extracting_prompts (table_name : pystr)
| Error_scanning_database (db_path : path)
| Data_extraction_completed (output_file : pystr).

(** What the working directory holds under the name [output]. *)
Inductive entry : Type :=
| Absent
| Directory
| NotDirectory.

(** The part of the machine the run changes. *)
Record world : Type := mk_world {
  console : list event;
  output_dir : entry;
  output_files : list (pystr * pystr)
}.

Fixpoint file_content (files : list (pystr * pystr)) (name : pystr) : option pystr :=
  match files with
  | [] => None
  | (n, c) :: files' => if pystr_eqb n name then Some c else file_content files' name
  end.

Fixpoint file_store (files : list (pystr * pystr)) (name : pystr) (c : pystr)
  : list (pystr * pystr) :=
  match files with
  | [] => [(name, c)]
  | (n, c') :: files' =>
      if pystr_eqb n name then (n, c) :: files' else (n, c') :: file_store files' name c
  end.

Definition print (e : event) (w : world) : world :=
  mk_world (console w ++ [e]) (output_dir w) (output_files w).

(* ------------------------------------------------------------------ *)
(** ** Reading the specification *)

(** The paths below a directory: an entry of it, or a path below one of its
    entries. *)
Inductive reaches : fsnode -> path -> Prop :=
| reaches_entry : forall name entries e,
    In e entries -> reaches (Dir name entries) [node_name e]
| reaches_below : forall name entries e p,
    In e entries -> reaches e p -> reaches (Dir name entries) (node_name e :: p).

(** The file name of a path: its last component. *)
Definition file_name (p : path) : pystr := last p [].

(** A mapping element that has a [textDescription] key. *)
Definition has_text_description (item : pyval) : bool :=
  match item with
  | PDict d => dict_has d (lit "textDescription")
  | _ => false
  end.

(** The value under that key. *)
Definition text_description (item : pyval) : pyval :=
  match item with
  | PDict d =>
      match dict_get d (lit "textDescription") with
      | Some v => v
      | None => PNone
      end
  | _ => PNone
  end.

(** A message the renderer accepts: a mapping whose [text], when there is
    one, is a string that UTF-8 encodes. *)
Definition message_ok (message : pyval) : bool :=
  match message with
  | PDict d =>
      match dict_get d (lit "text") with
      | None => true
      | Some (PStr s) => encodable s
      | Some _ => false
      end
  | _ => false
  end.

(** The sender of a message mapping: [User] for a [type] equal to 1. *)
Definition message_sender (message : pyval) : pystr :=
  match message with
  | PDict d =>
      match dict_get d (lit "type") with
      | Some type => if eq_one type then lit "User" else lit "Assistant"
      | None => lit "Assistant"
      end
  | _ => lit "Assistant"
  end.

(** The trimmed text of a message mapping, empty when it has none. *)
Definition message_text (message : pyval) : pystr :=
  match message with
  | PDict d =>
      match dict_get d (lit "text") with
      | Some (PStr s) => strip s
      | _ => []
      end
  | _ => []
  end.

(** The line [**<sender>**: <text>] of a message. *)
Definition message_line (message : pyval) : pystr :=
  lit "**" ++ message_sender message ++ lit "**: " ++ message_text message ++ nl.

(** The subsection of a conversation: its key, a line for each message, and
    the separator. *)
Definition conversation_section (key_text : pystr) (messages : list pyval) : pystr :=
  lit "## Key: " ++ key_text ++ nl ++ concat (map message_line messages)
  ++ nl ++ lit "---" ++ nl.

(** The lines of a numbered list that starts at [i]. *)
Fixpoint numbered (i : nat) (texts : list pystr) : pystr :=
  match texts with
  | [] => []
  | s :: rest => str_of_nat i ++ lit ". " ++ strip s ++ nl ++ numbered (S i) rest
  end.

(** The prompts whose line gets written: those before the first one that
    is not a string or does not encode. *)
Fixpoint written_prompts (prompts : list pyval) : list pystr :=
  match prompts with
  | PStr s :: rest => if encodable s then s :: written_prompts rest else []
  | _ => []
  end.

(** What the renderer writes for the prompts of one database file. *)
Definition prompts_part (prompts : list pyval) : pystr :=
  match prompts with
  | [] => []
  | _ :: _ => nl ++ lit "# Prompts" ++ nl ++ numbered 1 (written_prompts prompts)
  end.

(** A statement that only appends to the file: what it appends and how it
    ends do not depend on what the file held. *)
Definition appending {A : Type} (c : io A) : Prop :=
  forall buf, c buf = (buf ++ fst (c []), snd (c [])).

(** A statement that ends in an exception, whatever the file held. *)
Definition raising {A : Type} (c : io A) : Prop :=
  forall buf, exists written e, c buf = (buf ++ written, inl e).

(** A string without leading or trailing whitespace. *)
Definition trimmed (s : pystr) : Prop := lstrip s = s /\ rstrip s = s.

(** The content of a file of the output directory, empty when it is not
    there. *)
Definition content_of (w : world) (name : pystr) : pystr :=
  match file_content (output_files w) name with
  | Some c => c
  | None => []
  end.

(** A prompt the renderer accepts: a string that UTF-8 encodes. *)
Definition prompt_ok (prompt : pyval) : bool :=
  match prompt with
  | PStr s => encodable s
  | _ => false
  end.

(** A directory tree in which no directory lists a name twice. *)
Inductive well_formed : fsnode -> Prop :=
| well_formed_file : forall name content, well_formed (File name content)
| well_formed_dir : forall name entries,
    NoDup (map node_name entries) ->
    (forall e, In e entries -> well_formed e) ->
    well_formed (Dir name entries).

(** The events a database file can add to the console. *)
Definition database_event (e : event) : bool :=
  match e with
  | Scanning_database _
  | Searching_for_conversations _
  | Error_extracting_conversations _
  | Searching_for_prompts _
  | Error_extracting_prompts _
  | Error_scanning_database _ => true
  | _ => false
  end.

(* ------------------------------------------------------------------ *)
(** ** Library functions for the worked examples *)

Definition continuation (b : N) : bool := ((128 <=? b) && (b <=? 191))%N.

Definition lead3 (b0 b1 : N) : bool :=
  (((b0 =? 224) && (160 <=? b1) && (b1 <=? 191))
   || ((225 <=? b0) && (b0 <=? 236) && continuation b1)
   || ((b0 =? 237) && (128 <=? b1) && (b1 <=? 159))
   || ((238 <=? b0) && (b0 <=? 239) && continuation b1))%N.

Definition lead4 (b0 b1 : N) : bool :=
  (((b0 =? 240) && (144 <=? b1) && (b1 <=? 191))
   || ((241 <=? b0) && (b0 <=? 243) && continuation b1)
   || ((b0 =? 244) && (128 <=? b1) && (b1 <=? 143)))%N.

(** Strict UTF-8 decoding (RFC 3629) of a list of byte values. *)
Fixpoint utf8_strict (bs : list N) : option pystr :=
  match bs with
  | [] => Some []
  | b0 :: r0 =>
      if (b0 <? 128)%N then option_map (cons b0) (utf8_strict r0)
      else
        match r0 with
        | [] => None
        | b1 :: r1 =>
            if ((194 <=? b0) && (b0 <=? 223))%N && continuation b1
            then option_map (cons ((b0 - 192) * 64 + (b1 - 128))%N) (utf8_strict r1)
            else
              match r1 with
              | [] => None
              | b2 :: r2 =>
                  if lead3 b0 b1 && continuation b2
                  then option_map
                         (cons ((b0 - 224) * 4096 + (b1 - 128) * 64 + (b2 - 128))%N)
                         (utf8_strict r2)
                  else
                    match r2 with
                    | [] => None
                    | b3 :: r3 =>
                        if lead4 b0 b1 && continuation b2 && continuation b3
                        then option_map
                               (cons ((b0 - 240) * 262144 + (b1 - 128) * 4096
                                      + (b2 - 128) * 64 + (b3 - 128))%N)
                               (utf8_strict r3)
                        else None
                    end
              end
        end
  end.

(** An instance of [bytes.decode('utf-8')]. *)
Definition decode_utf8 (b : list byte) : option pystr :=
  utf8_strict (map Byte.to_N b).

(** The bytes of JSON text written with ['] for the double quote. *)
Definition json_bytes (s : String.string) : list byte :=
  map (fun b => if Byte.eqb b x27 then x22 else b) (String.list_byte_of_string s).
Arguments json_bytes s%_string.

Definition doc_chat : pystr :=
  json_text "{'conversation':[{'type':1,'text':' hi '},{'type':2,'text':'hello'}]}".
Definition doc_chat_defaults : pystr :=
  json_text "{'conversation':[{'type':1},{'text':'ok'},{}]}".
Definition doc_chat_number_text : pystr :=
  json_text "{'conversation':[{'text':5}]}".
Definition doc_chat_number_entry : pystr :=
  json_text "{'conversation':[5]}".
Definition doc_prompt : pystr :=
  json_text "{'textDescription':' do X '}".
Definition doc_prompt_list : pystr :=
  json_text "[{'textDescription':'a'},7,{'other':1},{'textDescription':'b'}]".
Definition doc_prompt_number : pystr :=
  json_text "{'textDescription':5}".
Definition doc_not_json : pystr :=
  json_text "{not json".

Definition messages_chat : list pyval :=
  [PDict [(lit "type", PInt 1); (lit "text", PStr (lit " hi "))];
   PDict [(lit "type", PInt 2); (lit "text", PStr (lit "hello"))]].
Definition messages_defaults : list pyval :=
  [PDict [(lit "type", PInt 1)]; PDict [(lit "text", PStr (lit "ok"))]; PDict []].
Definition val_chat : pyval := PDict [(lit "conversation", PList messages_chat)].
Definition val_chat_defaults : pyval :=
  PDict [(lit "conversation", PList messages_defaults)].
Definition val_chat_number_text : pyval :=
  PDict [(lit "conversation", PList [PDict [(lit "text", PInt 5)]])].
Definition val_chat_number_entry : pyval :=
  PDict [(lit "conversation", PList [PInt 5])].
Definition val_prompt : pyval :=
  PDict [(lit "textDescription", PStr (lit " do X "))].
Definition items_prompt_list : list pyval :=
  [PDict [(lit "textDescription", PStr (lit "a"))];
   PInt 7;
   PDict [(lit "other", PInt 1)];
   PDict [(lit "textDescription", PStr (lit "b"))]].
Definition val_prompt_list : pyval := PList items_prompt_list.
Definition val_prompt_number : pyval :=
  PDict [(lit "textDescription", PInt 5)].

(** An excerpt of [json.loads]: the documents above with the values Python
    parses them to; every other text is taken not to parse. *)
Definition loads_examples (s : pystr) : option pyval :=
  if pystr_eqb s doc_chat then Some val_chat
  else if pystr_eqb s doc_chat_defaults then Some val_chat_defaults
  else if pystr_eqb s doc_chat_number_text then Some val_chat_number_text
  else if pystr_eqb s doc_chat_number_entry then Some val_chat_number_entry
  else if pystr_eqb s doc_prompt then Some val_prompt
  else if pystr_eqb s doc_prompt_list then Some val_prompt_list
  else if pystr_eqb s doc_prompt_number then Some val_prompt_number
  else None.

(** The examples have text keys only: the two [repr] functions are not
    reached and are left blank. *)
Definition repr_blank {A : Type} (_ : A) : pystr := [].

(** A database given by its tables. *)
Definition database_of (tables : list (pystr * list row)) : database :=
  mk_database (map fst tables)
    (fun name => option_map snd (find (fun t => pystr_eqb (fst t) name) tables)).

Definition item_table : pystr := lit "ItemTable".

Definition row_chat : row := (SqlText (lit "chat"), SqlText doc_chat).
Definition row_chat_defaults : row := (SqlText (lit "sparse"), SqlText doc_chat_defaults).
Definition row_chat_number_text : row :=
  (SqlText (lit "chat"), SqlText doc_chat_number_text).
Definition row_chat_number_entry : row :=
  (SqlText (lit "chat"), SqlText doc_chat_number_entry).
Definition row_not_json : row := (SqlText (lit "broken"), SqlText doc_not_json).
Definition row_not_utf8 : row := (SqlText (lit "binary"), SqlBlob [xff; xfe]).
Definition row_prompt : row := (SqlText (lit "prompt"), SqlText doc_prompt).
Definition row_prompt_list : row :=
  (SqlText (lit "prompts"),
   SqlBlob (json_bytes "[{'textDescription':'a'},7,{'other':1},{'textDescription':'b'}]")).
Definition row_prompt_number : row := (SqlText (lit "prompt"), SqlText doc_prompt_number).

Definition db_mixed : database :=
  database_of
    [(item_table, [row_chat; row_not_json; row_not_utf8; row_prompt; row_prompt_list])].
Definition db_prompt : database := database_of [(item_table, [row_prompt])].
Definition db_number_prompt : database := database_of [(item_table, [row_prompt_number])].

Definition tree_two : fsnode :=
  Dir (lit "root")
    [File (lit "state.vscdb") (Some db_mixed);
     Dir (lit "ws") [File (lit "state.vscdb") (Some db_prompt)]].
Definition tree_none : fsnode :=
  Dir (lit "root") [File (lit "notes.txt") None; Dir (lit "ws") []].
Definition tree_abort : fsnode :=
  Dir (lit "root")
    [File (lit "state.vscdb") (Some db_number_prompt);
     File (lit "state.vscdb.backup") (Some db_prompt)].

Definition record_chat : conversation :=
  mk_conversation (SqlText (lit "chat")) (PList messages_chat).
Definition record_defaults : conversation :=
  mk_conversation (SqlText (lit "sparse")) (PList messages_defaults).
Definition record_number_text : conversation :=
  mk_conversation (SqlText (lit "chat")) (PList [PDict [(lit "text", PInt 5)]]).
Definition record_number_entry : conversation :=
  mk_conversation (SqlText (lit "chat")) (PList [PInt 5]).

Definition world0 : world := mk_world [] Absent [].
Definition now0 : pystr := lit "20240101_120000".

Definition db_long : database :=
  database_of [(item_table, repeat row_chat 1000 ++ [row_prompt])].
Definition db_broken_table : database :=
  mk_database [lit "sqlite_sequence"; item_table]
    (fun name => if pystr_eqb name item_table then Some [row_prompt] else None).
Definition tree_unreadable : fsnode :=
  Dir (lit "root")
    [Dir (lit "state.vscdb") [];
     Dir (lit "ws")
       [File (lit "state.vscdb") None;
        File (lit "state.vscdb.backup") (Some db_prompt)]].
Definition record_empty_text : conversation :=
  mk_conversation (SqlText (lit "chat")) (PStr []).
Definition record_text : conversation :=
  mk_conversation (SqlText (lit "chat")) (PStr (lit "hi")).

(* ------------------------------------------------------------------ *)
(** ** The script *)

Section ChatHistory.

(** [bytes.decode('utf-8')]; [None] for [UnicodeDecodeError]. *)
Variable utf8_decode : list byte -> option pystr.

(** [json.loads] on a [str]; [None] where it raises. *)
Variable json_loads : pystr -> option pyval.

(** [repr] of a [float] and of a [bytes], for keys of those storage classes. *)
Variable repr_float : float -> pystr.
Variable repr_bytes : list byte -> pystr.

(** [json.loads(value) if value else None] on decoded text. *)
Definition loads_text (value : pystr) : option pyval :=
  match value with
  | [] => Some PNone
  | _ :: _ => json_loads value
  end.

(** Lines 24-28 and 52-56: the decoded and parsed value of a row, [None]
    when a statement raises.  [json.loads] takes no [int] and no [float]. *)
Definition parse_value (value : sqlval) : option pyval :=
  match value with
  | SqlBlob b =>
      match utf8_decode b with
      | Some s => loads_text s
      | None => None
      end
  | SqlText s => loads_text s
  | SqlNull => Some PNone
  | SqlInt z => if Z.eqb z 0 then Some PNone else None
  | SqlReal f => if PrimFloat.eqb f 0%float then Some PNone else None
  end.

(** Lines 21-35: the body of the loop over [rows]. *)
Definition conversations_step (conversations : list conversation) (r : row)
  : list conversation :=
  let (key, value) := r in
  match parse_value value with
  | Some (PDict parsed) =>
      match dict_get parsed (lit "conversation") with
      | Some c => conversations ++ [mk_conversation key c]
      | None => conversations
      end
  | _ => conversations
  end.

(** Lines 17 and 21-35: the loop, started on the empty list. *)
Definition conversations_of_rows (rows : list row) : list conversation :=
  fold_left conversations_step rows [].

Definition extract_conversations (cursor : database) (table_name : pystr)
  : list conversation :=
  match fetch_rows cursor table_name with
  | Some rows => conversations_of_rows rows
  | None => []
  end.

Definition extract_conversations_console (cursor : database) (table_name : pystr)
  : list event :=
  Searching_for_conversations table_name ::
  match fetch_rows cursor table_name with
  | Some _ => []
  | None => [Error_extracting_conversations table_name]
  end.

(** Lines 60-62: the body of the loop over the items of a parsed list. *)
Definition prompts_item_step (prompts : list pyval) (item : pyval) : list pyval :=
  match item with
  | PDict d =>
      match dict_get d (lit "textDescription") with
      | Some v => prompts ++ [v]
      | None => prompts
      end
  | _ => prompts
  end.

(** Lines 49-67: the body of the loop over [rows]. *)
Definition prompts_step (prompts : list pyval) (r : row) : list pyval :=
  let (key, value) := r in
  match parse_value value with
  | Some (PList items) => fold_left prompts_item_step items prompts
  | Some (PDict parsed) =>
      match dict_get parsed (lit "textDescription") with
      | Some v => prompts ++ [v]
      | None => prompts
      end
  | _ => prompts
  end.

(** Lines 45 and 49-67: the loop, started on the empty list. *)
Definition prompts_of_rows (rows : list row) : list pyval :=
  fold_left prompts_step rows [].

Definition extract_prompts (cursor : database) (table_name : pystr) : list pyval :=
  match fetch_rows cursor table_name with
  | Some rows => prompts_of_rows rows
  | None => []
  end.

Definition extract_prompts_console (cursor : database) (table_name : pystr)
  : list event :=
  Searching_for_prompts table_name ::
  match fetch_rows cursor table_name with
  | Some _ => []
  | None => [Error_extracting_prompts table_name]
  end.

(** Lines 88-92: the body of the loop over [tables]. *)
Definition scan_table (cursor : database) (acc : list conversation * list pyval)
  (table_name : pystr) : list conversation * list pyval :=
  (fst acc ++ extract_conversations cursor table_name,
   snd acc ++ extract_prompts cursor table_name).

(** [scan_database], given what opening the file gave. *)
Definition scan_database (db : option database) : list conversation * list pyval :=
  match db with
  | Some cursor => fold_left (scan_table cursor) (db_tables cursor) ([], [])
  | None => ([], [])
  end.

Definition scan_database_console (db_path : path) (db : option database) : list event :=
  Scanning_database db_path ::
  match db with
  | Some cursor =>
      flat_map (fun t => extract_conversations_console cursor t
                         ++ extract_prompts_console cursor t) (db_tables cursor)
  | None => [Error_scanning_database db_path]
  end.

(** [str(z)] *)
Definition str_of_Z (z : Z) : pystr :=
  match z with
  | Zneg p => lit "-" ++ str_of_nat (Pos.to_nat p)
  | _ => str_of_nat (Z.to_nat z)
  end.

(** [f"{conv['key']}"] *)
Definition format_key (key : sqlval) : pystr :=
  match key with
  | SqlNull => lit "None"
  | SqlInt z => str_of_Z z
  | SqlReal f => repr_float f
  | SqlText s => s
  | SqlBlob b => repr_bytes b
  end.

(** Line 110 *)
Definition sender_of (type : pyval) : pystr :=
  if eq_one type then lit "User" else lit "Assistant".

(** Lines 110-112: the body of the loop over the messages. *)
Definition write_message (message : pyval) : io unit :=
  type <- lift (py_get message (lit "type") PNone) ;;
  text <- lift (py_get message (lit "text") (PStr [])) ;;
  text <- lift (py_strip text) ;;
  f_write (lit "**" ++ sender_of type ++ lit "**: " ++ text ++ nl).

(** Lines 108-113: the body of the loop over [conversations]. *)
Definition write_conversation (conv : conversation) : io unit :=
  f_write (lit "## Key: " ++ format_key (conv_key conv) ++ nl) ;;
  messages <- lift (py_iter (conv_conversation conv)) ;;
  for_each messages write_message ;;
  f_write (nl ++ lit "---" ++ nl).

(** Line 120 *)
Definition write_prompt (ip : nat * pyval) : io unit :=
  let (i, prompt) := ip in
  text <- lift (py_strip prompt) ;;
  f_write (str_of_nat i ++ lit ". " ++ text ++ nl).

(** Lines 105-115 *)
Definition write_conversations (conversations : list conversation) : io unit :=
  match conversations with
  | _ :: _ =>
      f_write (lit "# Conversations" ++ nl) ;;
      for_each conversations write_conversation
  | [] => f_write (lit "# No conversations found." ++ nl)
  end.

(** Lines 117-120 *)
Definition write_prompts (prompts : list pyval) : io unit :=
  match prompts with
  | _ :: _ =>
      f_write (nl ++ lit "# Prompts" ++ nl) ;;
      for_each (enumerate prompts 1) write_prompt
  | [] => ret tt
  end.

(** [save_to_markdown]: the content of [output_file] before the call, its
    content after it, and the exception the call ends with, if any.  The
    file is closed when the [with] block is left, also by an exception, so
    what was written before stays. *)
Definition save_to_markdown (before : pystr) (conversations : list conversation)
  (prompts : list pyval) : pystr * (exn + unit) :=
  (write_conversations conversations ;; write_prompts prompts) before.

(** Line 136, with the formatted time of the run. *)
Definition output_file_name (now : pystr) : pystr :=
  lit "conversations_and_prompts_" ++ now ++ lit ".md".

(** Line 138 *)
Definition db_files_of (base : fsnode) : list path :=
  rglob (lit "state.vscdb") [] base ++ rglob (lit "state.vscdb.backup") [] base.

(** Line 135: [output_dir.mkdir(exist_ok=True)] *)
Definition mkdir_output (w : world) : world * (exn + unit) :=
  match output_dir w with
  | NotDirectory => (w, inl FileExistsError)
  | _ => (mk_world (console w) Directory (output_files w), inr tt)
  end.

(** Lines 145-146 for one database file: the file is opened for appending,
    which creates it when it is not there. *)
Definition export_database (base : fsnode) (output_file : pystr) (db_file : path)
  (w : world) : world * (exn + unit) :=
  let db := open_database base db_file in
  let (conversations, prompts) := scan_database db in
  let before :=
    match file_content (output_files w) output_file with
    | Some c => c
    | None => []
    end in
  let (after, r) := save_to_markdown before conversations prompts in
  (mk_world (console w ++ scan_database_console db_file db) (output_dir w)
     (file_store (output_files w) output_file after), r).

(** Lines 144-146 *)
Fixpoint export_databases (base : fsnode) (output_file : pystr) (db_files : list path)
  (w : world) : world * (exn + unit) :=
  match db_files with
  | [] => (w, inr tt)
  | db_file :: rest =>
      match export_database base output_file db_file w with
      | (w', inr _) => export_databases base output_file rest w'
      | (w', inl e) => (w', inl e)
      end
  end.

(** [scan_directory(base_path)]: [base] is what [base_path] names, [None]
    when nothing is there, and [now] the formatted time of the run. *)
Definition scan_directory (now : pystr) (base : option fsnode) (w : world)
  : world * (exn + unit) :=
  let w := print Scanning_directory w in
  match base with
  | None => (print Directory_does_not_exist w, inr tt)
  | Some base =>
      match mkdir_output w with
      | (w, inl e) => (w, inl e)
      | (w, inr _) =>
          let output_file := output_file_name now in
          let db_files := db_files_of base in
          match db_files with
          | [] => (print No_database_files_found w, inr tt)
          | _ :: _ =>
              let w := print (Found_database_files (length db_files)) w in
              match export_databases base output_file db_files w with
              | (w, inr _) => (print (Data_extraction_completed output_file) w, inr tt)
              | (w, inl e) => (w, inl e)
              end
          end
      end
  end.


(** A row value the classifier cannot read: bytes that are not UTF-8, or
    text that is not JSON. *)
Inductive malformed : sqlval -> Prop :=
| undecodable : forall b, utf8_decode b = None -> malformed (SqlBlob b)
| unparsable_text : forall s, json_loads s = None -> malformed (SqlText s)
| unparsable_bytes : forall b s,
    utf8_decode b = Some s -> json_loads s = None -> malformed (SqlBlob b).

(** What one row adds to the conversations and to the prompts. *)
Definition row_conversations (r : row) : list conversation := conversations_step [] r.
Definition row_prompts (r : row) : list pyval := prompts_step [] r.

(** A record the renderer accepts: its key encodes, its [conversation] can
    be iterated, and every entry is an accepted message. *)
Definition renderable (conv : conversation) : bool :=
  encodable (format_key (conv_key conv))
  && match py_iter (conv_conversation conv) with
     | inr messages => forallb message_ok messages
     | inl _ => false
     end.

(** The subsection of a record. *)
Definition conversation_text (conv : conversation) : pystr :=
  conversation_section (format_key (conv_key conv))
    match py_iter (conv_conversation conv) with
    | inr messages => messages
    | inl _ => []
    end.

(** What the renderer writes for the conversations of one database file,
    when every record is accepted. *)
Definition conversations_part (conversations : list conversation) : pystr :=
  match conversations with
  | [] => lit "# No conversations found." ++ nl
  | _ :: _ => lit "# Conversations" ++ nl ++ concat (map conversation_text conversations)
  end.

(* ------------------------------------------------------------------ *)
(** ** Strings and loops *)

Lemma pystr_eqb_eq (a b : pystr) : pystr_eqb a b = true <-> a = b.
Proof.
  revert b; induction a as [|x a IH]; intros [|y b]; simpl; split;
    try congruence; try reflexivity.
  - intros H. apply andb_true_iff in H as [Hx Hab].
    apply N.eqb_eq in Hx. apply IH in Hab. congruence.
  - intros H. injection H as -> ->. rewrite N.eqb_refl. simpl. now apply IH.
Qed.

Lemma pystr_eqb_refl (a : pystr) : pystr_eqb a a = true.
Proof. now apply pystr_eqb_eq. Qed.

(** A loop whose body appends to its accumulator appends the pieces in
    order. *)
Lemma fold_left_appending (A B : Type) (step : list B -> A -> list B)
  (piece : A -> list B) :
  (forall acc x, step acc x = acc ++ piece x) ->
  forall l acc, fold_left step l acc = acc ++ flat_map piece l.
Proof.
  intros Hstep l; induction l as [|x l IH]; intros acc; simpl.
  - now rewrite app_nil_r.
  - rewrite IH, Hstep, <- app_assoc. reflexivity.
Qed.

Lemma conversations_step_appends (acc : list conversation) (r : row) :
  conversations_step acc r = acc ++ row_conversations r.
Proof.
  unfold row_conversations, conversations_step. destruct r as [key value].
  destruct (parse_value value) as [[]|]; try now rewrite app_nil_r.
  destruct (dict_get items _); simpl; [reflexivity | now rewrite app_nil_r].
Qed.

Lemma conversations_of_rows_flat (rows : list row) :
  conversations_of_rows rows = flat_map row_conversations rows.
Proof.
  unfold conversations_of_rows.
  now rewrite (fold_left_appending _ _ conversations_step_appends).
Qed.

Lemma conversations_of_rows_app (a b : list row) :
  conversations_of_rows (a ++ b) = conversations_of_rows a ++ conversations_of_rows b.
Proof. rewrite !conversations_of_rows_flat. apply flat_map_app. Qed.

Lemma prompts_item_step_appends (acc : list pyval) (item : pyval) :
  prompts_item_step acc item
  = acc ++ (if has_text_description item then [text_description item] else []).
Proof.
  unfold prompts_item_step, has_text_description, text_description, dict_has.
  destruct item; try now rewrite app_nil_r.
  destruct (dict_get items _); [reflexivity | now rewrite app_nil_r].
Qed.

Lemma flat_map_filter_map (A B : Type) (keep : A -> bool) (f : A -> B) (l : list A) :
  flat_map (fun x => if keep x then [f x] else []) l = map f (filter keep l).
Proof.
  induction l as [|x l IH]; simpl; [reflexivity|].
  destruct (keep x); simpl; now rewrite IH.
Qed.

Lemma prompts_items_loop (items : list pyval) (acc : list pyval) :
  fold_left prompts_item_step items acc
  = acc ++ map text_description (filter has_text_description items).
Proof.
  rewrite (fold_left_appending _ _ prompts_item_step_appends).
  now rewrite flat_map_filter_map.
Qed.

Lemma prompts_step_appends (acc : list pyval) (r : row) :
  prompts_step acc r = acc ++ row_prompts r.
Proof.
  unfold row_prompts, prompts_step. destruct r as [key value].
  destruct (parse_value value) as [[]|]; try now rewrite app_nil_r.
  - now rewrite !prompts_items_loop.
  - destruct (dict_get items _); simpl; [reflexivity | now rewrite app_nil_r].
Qed.

Lemma prompts_of_rows_flat (rows : list row) :
  prompts_of_rows rows = flat_map row_prompts rows.
Proof.
  unfold prompts_of_rows.
  now rewrite (fold_left_appending _ _ prompts_step_appends).
Qed.

Lemma prompts_of_rows_app (a b : list row) :
  prompts_of_rows (a ++ b) = prompts_of_rows a ++ prompts_of_rows b.
Proof. rewrite !prompts_of_rows_flat. apply flat_map_app. Qed.

Lemma prompts_of_rows_cons (r : row) (rows : list row) :
  prompts_of_rows (r :: rows) = row_prompts r ++ prompts_of_rows rows.
Proof. now rewrite !prompts_of_rows_flat. Qed.

Lemma conversations_of_rows_cons (r : row) (rows : list row) :
  conversations_of_rows (r :: rows) = row_conversations r ++ conversations_of_rows rows.
Proof. now rewrite !conversations_of_rows_flat. Qed.




(* ------------------------------------------------------------------ *)
(** ** Extraction *)

(** C2. A row that parses to an array adds one prompt for each of its K
    mapping elements with a [textDescription] key, in array order, whatever
    else the array holds; a row that parses to a mapping with that key adds
    exactly one prompt. *)
Theorem prompt_extraction_counts :
  forall cursor table_name pre key value post parsed,
    fetch_rows cursor table_name = Some (pre ++ (key, value) :: post) ->
    parse_value value = Some parsed ->
    (forall items K,
        parsed = PList items ->
        length (filter has_text_description items) = K ->
        exists produced,
          extract_prompts cursor table_name
          = prompts_of_rows pre ++ produced ++ prompts_of_rows post
          /\ produced = map text_description (filter has_text_description items)
          /\ length produced = K)
    /\ (forall d,
        parsed = PDict d ->
        dict_has d (lit "textDescription") = true ->
        extract_prompts cursor table_name
        = prompts_of_rows pre ++ [text_description parsed] ++ prompts_of_rows post).
Proof.
  intros cursor table_name pre key value post parsed Hrows Hparse.
  unfold extract_prompts. rewrite Hrows.
  rewrite prompts_of_rows_app, prompts_of_rows_cons.
  unfold row_prompts, prompts_step. rewrite Hparse.
  split.
  - intros items K -> HK. eexists. split; [|split].
    + rewrite prompts_items_loop. simpl. reflexivity.
    + reflexivity.
    + now rewrite length_map.
  - intros d -> Hd. unfold text_description. unfold dict_has in Hd.
    destruct (dict_get d _); [reflexivity | discriminate].
Qed.


(* ------------------------------------------------------------------ *)
(** ** Writing *)

Lemma isspace_not_surrogate (c : N) : isspace c = true -> is_surrogate c = false.
Proof.
  intros H. unfold is_surrogate.
  destruct (N.leb_spec 55296 c) as [Hc|]; [|reflexivity].
  exfalso. unfold isspace in H.
  repeat rewrite ?orb_true_iff, ?andb_true_iff, ?N.leb_le, ?N.eqb_eq in H. lia.
Qed.

Lemma encodable_app (a b : pystr) : encodable (a ++ b) = encodable a && encodable b.
Proof. apply forallb_app. Qed.

Lemma encodable_rev (s : pystr) : encodable (rev s) = encodable s.
Proof.
  induction s as [|c s IH]; simpl; [reflexivity|].
  rewrite encodable_app, IH. simpl. rewrite andb_true_r. apply andb_comm.
Qed.

Lemma encodable_lstrip (s : pystr) : encodable (lstrip s) = encodable s.
Proof.
  induction s as [|c s IH]; simpl; [reflexivity|].
  destruct (isspace c) eqn:Hc; [|reflexivity].
  rewrite IH, (isspace_not_surrogate _ Hc). reflexivity.
Qed.

Lemma encodable_strip (s : pystr) : encodable (strip s) = encodable s.
Proof.
  unfold strip, rstrip.
  now rewrite encodable_rev, encodable_lstrip, encodable_rev, encodable_lstrip.
Qed.

Lemma f_write_ok (s buf : pystr) :
  encodable s = true -> f_write s buf = (buf ++ s, inr tt).
Proof. intros H. unfold f_write. now rewrite H. Qed.

Lemma f_write_raises (s buf : pystr) :
  encodable s = false -> f_write s buf = (buf, inl UnicodeEncodeError).
Proof. intros H. unfold f_write. now rewrite H. Qed.

Lemma for_each_ok (A : Type) (body : A -> io unit) (text : A -> pystr) (l : list A) :
  (forall x buf, In x l -> body x buf = (buf ++ text x, inr tt)) ->
  forall buf, for_each l body buf = (buf ++ concat (map text l), inr tt).
Proof.
  induction l as [|x l IH]; intros Hbody buf; simpl.
  - unfold ret. now rewrite app_nil_r.
  - unfold bind. rewrite Hbody by now left.
    rewrite IH by (intros; apply Hbody; now right).
    now rewrite <- app_assoc.
Qed.

Lemma appending_bind (A B : Type) (c : io A) (k : A -> io B) :
  appending c -> (forall a, appending (k a)) -> appending (bind c k).
Proof.
  intros Hc Hk buf. unfold bind. rewrite (Hc buf).
  destruct (c []) as [out [e|a]]; simpl.
  - reflexivity.
  - rewrite (Hk a (buf ++ out)), (Hk a out). simpl. now rewrite app_assoc.
Qed.

Lemma appending_lift (A : Type) (r : exn + A) : appending (lift r).
Proof. intros buf. destruct r; simpl; unfold raise, ret; simpl; now rewrite app_nil_r. Qed.

Lemma appending_ret (A : Type) (a : A) : appending (ret a).
Proof. intros buf. unfold ret; simpl. now rewrite app_nil_r. Qed.

Lemma appending_f_write (s : pystr) : appending (f_write s).
Proof.
  intros buf. unfold f_write. destruct (encodable s); simpl;
    [reflexivity | now rewrite app_nil_r].
Qed.

Lemma appending_for_each (A : Type) (body : A -> io unit) (l : list A) :
  (forall x, appending (body x)) -> appending (for_each l body).
Proof.
  intros Hbody. induction l as [|x l IH]; simpl.
  - apply appending_ret.
  - apply appending_bind; [apply Hbody | intros _; exact IH].
Qed.

Lemma raising_bind_left (A B : Type) (c : io A) (k : A -> io B) :
  raising c -> raising (bind c k).
Proof.
  intros Hc buf. destruct (Hc buf) as (written & e & H).
  exists written, e. unfold bind. now rewrite H.
Qed.

Lemma raising_bind_right (A B : Type) (c : io A) (k : A -> io B) :
  appending c -> (forall a, raising (k a)) -> raising (bind c k).
Proof.
  intros Hc Hk buf. unfold bind. rewrite (Hc buf).
  destruct (c []) as [out [e|a]]; simpl.
  - now exists out, e.
  - destruct (Hk a (buf ++ out)) as (written & e & H).
    exists (out ++ written), e. now rewrite H, app_assoc.
Qed.

Lemma raising_for_each (A : Type) (body : A -> io unit) (l : list A) (x : A) :
  (forall y, appending (body y)) -> In x l -> raising (body x) ->
  raising (for_each l body).
Proof.
  intros Happ Hin Hx. induction l as [|y l IH]; [destruct Hin|]. simpl.
  destruct Hin as [-> | Hin].
  - now apply raising_bind_left.
  - apply raising_bind_right; [apply Happ | intros _; now apply IH].
Qed.

Lemma raising_lift (A : Type) (e : exn) : raising (@lift A (inl e)).
Proof. intros buf. exists [], e. simpl. unfold raise. now rewrite app_nil_r. Qed.

Lemma encodable_lit (s : String.string) : encodable (lit s) = true.
Proof.
  unfold lit. induction (String.list_ascii_of_string s) as [|a l IH]; simpl;
    [reflexivity|].
  rewrite IH, andb_true_r. unfold is_surrogate.
  pose proof (N_ascii_bounded a) as Ha.
  destruct (N.leb_spec 55296 (N_of_ascii a)); [lia | reflexivity].
Qed.

Lemma encodable_str_of_nat (n : nat) : encodable (str_of_nat n) = true.
Proof. apply encodable_lit. Qed.

Lemma encodable_message_line (message : pyval) :
  message_ok message = true -> encodable (message_line message) = true.
Proof.
  intros Hok. unfold message_line.
  rewrite !encodable_app, !encodable_lit. simpl.
  assert (Hs : encodable (message_sender message) = true).
  { unfold message_sender. destruct message; try apply encodable_lit.
    destruct (dict_get items _) as [type|]; [|apply encodable_lit].
    destruct (eq_one type); apply encodable_lit. }
  assert (Ht : encodable (message_text message) = true).
  { unfold message_text, message_ok in *. destruct message; try reflexivity.
    destruct (dict_get items _) as [[]|]; try reflexivity.
    now rewrite encodable_strip. }
  now rewrite Hs, Ht.
Qed.

Lemma sender_of_get (d : list (pystr * pyval)) :
  sender_of (match dict_get d (lit "type") with Some v => v | None => PNone end)
  = message_sender (PDict d).
Proof. unfold sender_of, message_sender. now destruct (dict_get d _). Qed.

Lemma write_message_ok (message : pyval) (buf : pystr) :
  message_ok message = true ->
  write_message message buf = (buf ++ message_line message, inr tt).
Proof.
  intros Hok. pose proof (encodable_message_line _ Hok) as Henc.
  destruct message as [| | | | |l|d]; try discriminate Hok.
  unfold write_message, bind, lift, py_get, ret. rewrite sender_of_get.
  unfold message_line, message_text in Henc |- *. unfold message_ok in Hok.
  destruct (dict_get d (lit "text")) as [[]|]; try discriminate Hok;
    unfold py_strip; now rewrite f_write_ok.
Qed.

Lemma write_message_raises (message : pyval) :
  message_ok message = false -> raising (write_message message).
Proof.
  intros Hbad buf.
  destruct message as [| | | | |l|d];
    try (exists [], AttributeError; now rewrite app_nil_r).
  unfold write_message, bind, lift, py_get, ret. rewrite sender_of_get.
  unfold message_ok in Hbad.
  destruct (dict_get d (lit "text")) as [[]|]; try discriminate Hbad;
    try (exists [], AttributeError; now rewrite app_nil_r).
  exists [], UnicodeEncodeError. unfold py_strip. rewrite app_nil_r.
  apply f_write_raises.
  rewrite !encodable_app, encodable_strip, Hbad. simpl.
  now rewrite !andb_false_r.
Qed.

Lemma appending_write_message (message : pyval) : appending (write_message message).
Proof.
  unfold write_message.
  repeat (apply appending_bind; [apply appending_lift | intros ?]).
  apply appending_f_write.
Qed.

Lemma appending_write_conversation (conv : conversation) :
  appending (write_conversation conv).
Proof.
  unfold write_conversation.
  apply appending_bind; [apply appending_f_write | intros _].
  apply appending_bind; [apply appending_lift | intros messages].
  apply appending_bind; [|intros _; apply appending_f_write].
  apply appending_for_each, appending_write_message.
Qed.

Lemma forallb_false_In (A : Type) (f : A -> bool) (l : list A) :
  forallb f l = false -> exists x, In x l /\ f x = false.
Proof.
  induction l as [|x l IH]; simpl; [discriminate|].
  destruct (f x) eqn:Hx; simpl.
  - intros H. destruct (IH H) as (y & Hy & Hfy). exists y. auto.
  - intros _. exists x. auto.
Qed.

Lemma write_conversation_ok (conv : conversation) (messages : list pyval) (buf : pystr) :
  encodable (format_key (conv_key conv)) = true ->
  py_iter (conv_conversation conv) = inr messages ->
  forallb message_ok messages = true ->
  write_conversation conv buf
  = (buf ++ conversation_section (format_key (conv_key conv)) messages, inr tt).
Proof.
  intros Hkey Hiter Hok. unfold write_conversation, bind at 1.
  rewrite f_write_ok
    by (rewrite !encodable_app, Hkey, encodable_lit; reflexivity).
  rewrite Hiter. unfold bind, lift, ret.
  rewrite (for_each_ok write_message message_line)
    by (intros m b Hm; apply write_message_ok;
        rewrite forallb_forall in Hok; now apply Hok).
  rewrite f_write_ok by reflexivity.
  unfold conversation_section. now rewrite <- !app_assoc.
Qed.

Lemma bind_lift_inr (A B : Type) (a : A) (k : A -> io B) :
  bind (lift (inr a)) k = k a.
Proof. reflexivity. Qed.

Lemma write_conversation_bad_entry (conv : conversation) (messages : list pyval) :
  py_iter (conv_conversation conv) = inr messages ->
  forallb message_ok messages = false ->
  raising (write_conversation conv).
Proof.
  intros Hiter Hbad. unfold write_conversation.
  destruct (forallb_false_In _ _ Hbad) as (m & Hm & Hmbad).
  apply raising_bind_right; [apply appending_f_write | intros _].
  rewrite Hiter, bind_lift_inr. apply raising_bind_left.
  apply (raising_for_each write_message messages m);
    [apply appending_write_message | assumption | now apply write_message_raises].
Qed.

Lemma write_conversation_not_iterable (conv : conversation) (e : exn) :
  py_iter (conv_conversation conv) = inl e -> raising (write_conversation conv).
Proof.
  intros Hiter. unfold write_conversation.
  apply raising_bind_right; [apply appending_f_write | intros _].
  rewrite Hiter. apply raising_bind_left, raising_lift.
Qed.

Lemma appending_write_conversations (conversations : list conversation) :
  appending (write_conversations conversations).
Proof.
  unfold write_conversations. destruct conversations as [|c cs].
  - apply appending_f_write.
  - apply appending_bind; [apply appending_f_write | intros _].
    apply appending_for_each, appending_write_conversation.
Qed.

Lemma appending_write_prompt (ip : nat * pyval) : appending (write_prompt ip).
Proof.
  destruct ip as [i prompt]. unfold write_prompt.
  apply appending_bind; [apply appending_lift | intros ?; apply appending_f_write].
Qed.

Lemma appending_write_prompts (prompts : list pyval) : appending (write_prompts prompts).
Proof.
  unfold write_prompts. destruct prompts as [|p ps].
  - apply appending_ret.
  - apply appending_bind; [apply appending_f_write | intros _].
    apply appending_for_each, appending_write_prompt.
Qed.

Lemma save_to_markdown_appends (before : pystr) (conversations : list conversation)
  (prompts : list pyval) :
  save_to_markdown before conversations prompts
  = (before ++ fst (save_to_markdown [] conversations prompts),
     snd (save_to_markdown [] conversations prompts)).
Proof.
  unfold save_to_markdown.
  apply (@appending_bind _ _ (write_conversations conversations)
           (fun _ => write_prompts prompts)).
  - apply appending_write_conversations.
  - intros _. apply appending_write_prompts.
Qed.

Lemma write_prompt_ok (i : nat) (s buf : pystr) :
  encodable s = true ->
  write_prompt (i, PStr s) buf = (buf ++ str_of_nat i ++ lit ". " ++ strip s ++ nl, inr tt).
Proof.
  intros Hs. unfold write_prompt, bind, lift, py_strip, ret.
  apply f_write_ok.
  now rewrite !encodable_app, encodable_str_of_nat, encodable_strip, Hs.
Qed.

Lemma write_prompt_raises (i : nat) (prompt : pyval) :
  (forall s, prompt <> PStr s) -> raising (write_prompt (i, prompt)).
Proof.
  intros Hv buf.
  destruct prompt; try (exists [], AttributeError; now rewrite app_nil_r).
  now destruct (Hv s).
Qed.

Lemma In_enumerate (A : Type) (x : A) (l : list A) :
  In x l -> forall start, exists i, In (i, x) (enumerate l start).
Proof.
  unfold enumerate. induction l as [|y l IH]; intros Hin start; [destruct Hin|].
  simpl. destruct Hin as [-> | Hin].
  - exists start. now left.
  - destruct (IH Hin (S start)) as (i & Hi). exists i. now right.
Qed.

Lemma write_prompts_raises (prompts : list pyval) (v : pyval) :
  In v prompts -> (forall s, v <> PStr s) -> raising (write_prompts prompts).
Proof.
  intros Hin Hv. unfold write_prompts.
  destruct prompts as [|p ps]; [destruct Hin|].
  apply raising_bind_right; [apply appending_f_write | intros _].
  destruct (In_enumerate _ _ Hin 1) as (i & Hi).
  apply (raising_for_each write_prompt _ (i, v));
    [apply appending_write_prompt | assumption | now apply write_prompt_raises].
Qed.

Lemma save_to_markdown_raises (before : pystr) (conversations : list conversation)
  (prompts : list pyval) (v : pyval) :
  In v prompts -> (forall s, v <> PStr s) ->
  exists text e, save_to_markdown before conversations prompts = (text, inl e).
Proof.
  intros Hin Hv. unfold save_to_markdown.
  assert (R : raising (write_conversations conversations ;; write_prompts prompts)).
  { apply raising_bind_right; [apply appending_write_conversations | intros _].
    now apply write_prompts_raises with v. }
  destruct (R before) as (written & e & H). rewrite H. eauto.
Qed.

Lemma eq_one_spec (v : pyval) :
  eq_one v = true
  <-> v = PInt 1 \/ v = PBool true
      \/ exists f, v = PFloat f /\ PrimFloat.eqb f 1%float = true.
Proof.
  split.
  - destruct v; simpl; try discriminate; intros H.
    + destruct b; [auto | discriminate].
    + apply Z.eqb_eq in H. subst. auto.
    + right. right. now exists f.
  - intros [-> | [-> | (f & -> & H)]]; auto.
Qed.

Lemma lstrip_head (s : pystr) :
  lstrip s = [] \/ exists c t, lstrip s = c :: t /\ isspace c = false.
Proof.
  induction s as [|c s IH]; simpl; [now left|].
  destruct (isspace c) eqn:Hc; [exact IH|]. right. now exists c, s.
Qed.

Lemma lstrip_idempotent (s : pystr) : lstrip (lstrip s) = lstrip s.
Proof.
  destruct (lstrip_head s) as [-> | (c & t & -> & Hc)]; simpl; [reflexivity|].
  now rewrite Hc.
Qed.

Lemma lstrip_snoc (a : pystr) (c : N) :
  isspace c = false -> lstrip (a ++ [c]) = lstrip a ++ [c].
Proof.
  intros Hc. induction a as [|x a IH]; simpl.
  - now rewrite Hc.
  - destruct (isspace x); [exact IH | reflexivity].
Qed.

Lemma rstrip_cons (c : N) (t : pystr) :
  isspace c = false -> rstrip (c :: t) = c :: rstrip t.
Proof.
  intros Hc. unfold rstrip. simpl.
  now rewrite lstrip_snoc, rev_app_distr.
Qed.

Lemma strip_trimmed (s : pystr) : trimmed (strip s).
Proof.
  unfold trimmed, strip. split.
  - destruct (lstrip_head s) as [-> | (c & t & -> & Hc)]; [reflexivity|].
    rewrite rstrip_cons by assumption. simpl. now rewrite Hc.
  - unfold rstrip. now rewrite rev_involutive, lstrip_idempotent.
Qed.

(* ------------------------------------------------------------------ *)
(** ** Rendering *)

(** C1 (amended). A row that parses to a mapping whose [conversation] is an
    array of N messages yields one record holding those N messages in array
    order.  When every message is a mapping whose [text], if present, is an
    encodable string, the record renders as its key line, one line per
    message in order and the separator; the sender is [User] exactly for a
    [type] equal to 1 and [Assistant] otherwise, also without a [type]; a
    message without [text] has the empty text. *)
Theorem conversation_extracted_and_rendered :
  forall cursor table_name pre key value post parsed messages,
    fetch_rows cursor table_name = Some (pre ++ (key, value) :: post) ->
    parse_value value = Some (PDict parsed) ->
    dict_get parsed (lit "conversation") = Some (PList messages) ->
    extract_conversations cursor table_name
    = conversations_of_rows pre ++ [mk_conversation key (PList messages)]
      ++ conversations_of_rows post
    /\ (encodable (format_key key) = true ->
        forallb message_ok messages = true ->
        forall buf,
          write_conversation (mk_conversation key (PList messages)) buf
          = (buf ++ lit "## Key: " ++ format_key key ++ nl
                 ++ concat (map message_line messages) ++ nl ++ lit "---" ++ nl,
             inr tt))
    /\ length (map message_line messages) = length messages
    /\ (forall d type,
          dict_get d (lit "type") = Some type ->
          message_sender (PDict d)
          = if eq_one type then lit "User" else lit "Assistant")
    /\ (forall type,
          eq_one type = true
          <-> type = PInt 1 \/ type = PBool true
              \/ exists f, type = PFloat f /\ PrimFloat.eqb f 1%float = true)
    /\ (forall d, dict_get d (lit "type") = None ->
                  message_sender (PDict d) = lit "Assistant")
    /\ (forall d, dict_get d (lit "text") = None -> message_text (PDict d) = [])
    /\ (forall d s, dict_get d (lit "text") = Some (PStr s) ->
                    message_text (PDict d) = strip s).
Proof.
  intros cursor table_name pre key value post parsed messages Hrows Hparse Hconv.
  split; [|split; [|split; [|split; [|split; [|split; [|split]]]]]].
  - unfold extract_conversations. rewrite Hrows.
    rewrite conversations_of_rows_app, conversations_of_rows_cons.
    unfold row_conversations, conversations_step. now rewrite Hparse, Hconv.
  - intros Hkey Hok buf.
    now apply (@write_conversation_ok (mk_conversation key (PList messages))
                 messages buf).
  - apply length_map.
  - intros d type H. unfold message_sender. now rewrite H.
  - apply eq_one_spec.
  - intros d H. unfold message_sender. now rewrite H.
  - intros d H. unfold message_text. now rewrite H.
  - intros d s H. unfold message_text. now rewrite H.
Qed.

(** C3 (amended). A prompt is stored as it was parsed, without trimming,
    whether it comes from a mapping or from the elements of an array; it is
    trimmed once, when its numbered line is written, and the text on that
    line has no leading and no trailing whitespace. *)
Theorem prompt_trimmed_when_rendered :
  (forall key value d v,
      parse_value value = Some (PDict d) ->
      dict_get d (lit "textDescription") = Some v ->
      row_prompts (key, value) = [v])
  /\ (forall key value items,
      parse_value value = Some (PList items) ->
      row_prompts (key, value)
      = map text_description (filter has_text_description items))
  /\ (forall i s buf,
      encodable s = true ->
      write_prompt (i, PStr s) buf
      = (buf ++ str_of_nat i ++ lit ". " ++ strip s ++ nl, inr tt))
  /\ (forall s, trimmed (strip s)).
Proof.
  split; [|split; [|split]].
  - intros key value d v Hparse Hv.
    unfold row_prompts, prompts_step. now rewrite Hparse, Hv.
  - intros key value items Hparse.
    unfold row_prompts, prompts_step. rewrite Hparse.
    now rewrite prompts_items_loop.
  - intros i s buf Hs. now apply write_prompt_ok.
  - apply strip_trimmed.
Qed.

(** C5 (amended). Given a key that encodes, a record renders without an
    exception exactly when its [conversation] can be iterated and every
    entry is a mapping whose [text], if present, is an encodable string;
    the entries then render with the defaults for the fields they lack.
    When the field cannot be iterated, or an entry is not such a mapping,
    rendering the record ends in an exception, and so does
    [save_to_markdown] for any list of records that contains it. *)
Theorem malformed_entries_raise :
  forall conv,
    encodable (format_key (conv_key conv)) = true ->
    (forall messages buf,
        py_iter (conv_conversation conv) = inr messages ->
        forallb message_ok messages = true ->
        write_conversation conv buf
        = (buf ++ conversation_section (format_key (conv_key conv)) messages, inr tt))
    /\ message_line (PDict []) = lit "**Assistant**: " ++ nl
    /\ (forall before conversations prompts,
        In conv conversations ->
        (exists e, py_iter (conv_conversation conv) = inl e)
        \/ (exists messages,
               py_iter (conv_conversation conv) = inr messages
               /\ forallb message_ok messages = false) ->
        exists text e,
          save_to_markdown before conversations prompts = (text, inl e)).
Proof.
  intros conv Hkey. split; [|split].
  - intros messages buf Hiter Hok. now apply write_conversation_ok.
  - reflexivity.
  - intros before conversations prompts Hin Hbad.
    assert (Hconv : raising (write_conversation conv)).
    { destruct Hbad as [(e & He) | (messages & Hiter & Hm)].
      - now apply write_conversation_not_iterable with e.
      - now apply write_conversation_bad_entry with messages. }
    assert (R : raising (write_conversations conversations ;; write_prompts prompts)).
    { apply raising_bind_left. unfold write_conversations.
      destruct conversations as [|c cs]; [destruct Hin|].
      apply raising_bind_right; [apply appending_f_write | intros _].
      apply (raising_for_each write_conversation _ conv);
        [apply appending_write_conversation | assumption | assumption]. }
    destruct (R before) as (written & e & H).
    unfold save_to_markdown. rewrite H. eauto.
Qed.

(** C8. With no conversation the renderer writes the one marker line, and
    nothing else, before it turns to the prompts; with no prompt it writes
    nothing after the conversations. *)
Theorem empty_sections :
  (forall buf,
      write_conversations [] buf = (buf ++ lit "# No conversations found." ++ nl, inr tt))
  /\ (forall before prompts,
      save_to_markdown before [] prompts
      = write_prompts prompts (before ++ lit "# No conversations found." ++ nl))
  /\ (forall buf, write_prompts [] buf = (buf, inr tt))
  /\ (forall before conversations,
      save_to_markdown before conversations []
      = write_conversations conversations before).
Proof.
  split; [|split; [|split]].
  - intros buf. unfold write_conversations. now rewrite f_write_ok.
  - intros before prompts. unfold save_to_markdown, bind.
    unfold write_conversations. now rewrite f_write_ok.
  - reflexivity.
  - intros before conversations. unfold save_to_markdown, bind.
    destruct (write_conversations conversations before) as [text [e|[]]];
      reflexivity.
Qed.

(* ------------------------------------------------------------------ *)
(** ** The locator *)

Lemma fsnode_induction (P : fsnode -> Prop) :
  (forall name content, P (File name content)) ->
  (forall name entries, Forall P entries -> P (Dir name entries)) ->
  forall n, P n.
Proof.
  intros HF HD. fix IH 1. intros [name content | name entries].
  - apply HF.
  - apply HD. induction entries as [|e entries IHe]; constructor.
    + apply IH.
    + exact IHe.
Qed.

Lemma has_entry_spec (entries : list fsnode) (name : pystr) :
  has_entry entries name = true <-> exists e, In e entries /\ node_name e = name.
Proof.
  unfold has_entry. rewrite existsb_exists.
  split; intros (e & He & Hn); exists e; split; auto; now apply pystr_eqb_eq.
Qed.

Lemma reaches_nonempty (n : fsnode) (p : path) : reaches n p -> p <> [].
Proof. intros [? ? ? ?|? ? ? ? ? ?]; discriminate. Qed.

Lemma file_name_cons (c : pystr) (p : path) : p <> [] -> file_name (c :: p) = file_name p.
Proof. destruct p; [congruence | reflexivity]. Qed.

Lemma rglob_spec (pattern : pystr) (n : fsnode) :
  forall here p,
    In p (rglob pattern here n)
    <-> exists q, p = here ++ q /\ reaches n q /\ file_name q = pattern.
Proof.
  induction n as [name content | name entries IH] using fsnode_induction;
    intros here p; simpl.
  - split; [intros [] | intros (q & _ & Hq & _); inversion Hq].
  - rewrite in_app_iff, in_flat_map. split.
    + intros [Hhere | (e & He & Hp)].
      * destruct (has_entry entries pattern) eqn:Hhas; [|destruct Hhere].
        destruct Hhere as [<- | []].
        apply has_entry_spec in Hhas as (e & He & Hname).
        exists [pattern]. split; [reflexivity|]. split; [|reflexivity].
        rewrite <- Hname. now constructor.
      * rewrite Forall_forall in IH.
        apply (IH e He) in Hp as (q & -> & Hq & Hname).
        exists (node_name e :: q). rewrite <- app_assoc. split; [reflexivity|].
        split; [now apply reaches_below|].
        rewrite file_name_cons; [assumption | now apply reaches_nonempty with e].
    + intros (q & -> & Hq & Hname).
      inversion Hq as [nm es e He | nm es e q' He Hq']; subst.
      * left.
        assert (Hhas : has_entry entries (node_name e) = true)
          by (apply has_entry_spec; now exists e).
        change (file_name [node_name e]) with (node_name e).
        rewrite Hhas. now left.
      * right. exists e. split; [assumption|].
        rewrite Forall_forall in IH. apply (IH e He).
        exists q'. rewrite <- app_assoc. split; [reflexivity|].
        split; [assumption|].
        symmetry. apply file_name_cons. now apply reaches_nonempty with e.
Qed.


Lemma db_files_spec (base : fsnode) (p : path) :
  In p (db_files_of base)
  <-> reaches base p
      /\ (file_name p = lit "state.vscdb" \/ file_name p = lit "state.vscdb.backup").
Proof.
  unfold db_files_of. rewrite in_app_iff, !rglob_spec. split.
  - intros [(q & -> & Hq & Hn) | (q & -> & Hq & Hn)]; simpl; auto.
  - intros (Hp & [Hn | Hn]); [left | right]; exists p; auto.
Qed.


(* ------------------------------------------------------------------ *)
(** ** The run *)

Lemma file_content_store (files : list (pystr * pystr)) (name c : pystr) :
  file_content (file_store files name c) name = Some c.
Proof.
  induction files as [|[n c'] files IH]; simpl.
  - now rewrite pystr_eqb_refl.
  - destruct (pystr_eqb n name) eqn:Hn; simpl; now rewrite Hn.
Qed.

Lemma write_prompt_loop_written (prompts : list pyval) :
  forall i buf,
    fst (for_each (combine (seq i (length prompts)) prompts) write_prompt buf)
    = buf ++ numbered i (written_prompts prompts).
Proof.
  induction prompts as [|p prompts IH]; intros i buf;
    cbn [length seq combine for_each written_prompts].
  - simpl. now rewrite app_nil_r.
  - unfold bind.
    destruct p as [| | | |s| |];
      try (simpl; now rewrite app_nil_r).
    destruct (encodable s) eqn:Hs.
    + rewrite write_prompt_ok by assumption. rewrite IH.
      cbn [numbered]. now rewrite <- !app_assoc.
    + unfold write_prompt, bind, lift, py_strip, ret.
      rewrite f_write_raises
        by now rewrite !encodable_app, encodable_strip, Hs, !andb_false_r.
      simpl. now rewrite app_nil_r.
Qed.

Lemma write_prompts_written (prompts : list pyval) (buf : pystr) :
  fst (write_prompts prompts buf) = buf ++ prompts_part prompts.
Proof.
  destruct prompts as [|p prompts].
  - simpl. now rewrite app_nil_r.
  - unfold write_prompts, prompts_part, enumerate. unfold bind at 1.
    rewrite f_write_ok by reflexivity.
    rewrite write_prompt_loop_written. now rewrite <- !app_assoc.
Qed.

Lemma save_to_markdown_written (conversations : list conversation)
  (prompts : list pyval) :
  fst (save_to_markdown [] conversations prompts)
  = fst (write_conversations conversations [])
    ++ match snd (write_conversations conversations []) with
       | inr _ => prompts_part prompts
       | inl _ => []
       end.
Proof.
  unfold save_to_markdown, bind.
  destruct (write_conversations conversations []) as [text [e|u]]; simpl.
  - now rewrite app_nil_r.
  - apply write_prompts_written.
Qed.

Lemma export_database_content (base : fsnode) (output_file : pystr) (db_file : path)
  (w : world) :
  content_of (fst (export_database base output_file db_file w)) output_file
  = content_of w output_file
    ++ fst (save_to_markdown []
              (fst (scan_database (open_database base db_file)))
              (snd (scan_database (open_database base db_file)))).
Proof.
  unfold export_database, content_of.
  destruct (scan_database (open_database base db_file)) as [cs ps]. simpl.
  rewrite save_to_markdown_appends.
  simpl. now rewrite file_content_store.
Qed.

(** C9. The output document grows by one chunk for each database file the
    run gets to, in order.  A chunk is what the file renders to on its own:
    its conversations part and, when that part went through, its prompts
    part, whose lines are numbered from 1 over the prompts of that file
    alone.  A run that ends without an exception has a chunk for every
    file. *)
Theorem prompt_numbering_restarts :
  forall base output_file db_files w,
  exists chunks,
    content_of (fst (export_databases base output_file db_files w)) output_file
    = content_of w output_file ++ concat chunks
    /\ Forall2
         (fun db_file chunk =>
            let conversations := fst (scan_database (open_database base db_file)) in
            let prompts := snd (scan_database (open_database base db_file)) in
            chunk
            = fst (write_conversations conversations [])
              ++ match snd (write_conversations conversations []) with
                 | inr _ =>
                     match prompts with
                     | [] => []
                     | _ :: _ =>
                         nl ++ lit "# Prompts" ++ nl
                         ++ numbered 1 (written_prompts prompts)
                     end
                 | inl _ => []
                 end)
         (firstn (length chunks) db_files) chunks
    /\ (snd (export_databases base output_file db_files w) = inr tt ->
        length chunks = length db_files).
Proof.
  intros base output_file db_files.
  induction db_files as [|db_file rest IH]; intros w.
  - exists []. simpl. rewrite app_nil_r. repeat split. constructor.
  - cbn [export_databases].
    pose proof (export_database_content base output_file db_file w) as Hc.
    rewrite save_to_markdown_written in Hc.
    destruct (export_database base output_file db_file w) as [w1 [e|[]]].
    + eexists [_]. simpl in Hc |- *. rewrite app_nil_r.
      split; [exact Hc|]. split; [|discriminate].
      constructor; [reflexivity | constructor].
    + destruct (IH w1) as (chunks & Hw & Hall & Hlen).
      eexists (_ :: chunks). simpl in Hc. cbn [concat length firstn].
      split; [rewrite Hw, Hc, <- app_assoc; reflexivity|].
      split; [constructor; [reflexivity | exact Hall]|].
      intros Hr. now rewrite (Hlen Hr).
Qed.

Lemma export_database_raises (base : fsnode) (output_file : pystr) (db_file : path)
  (v : pyval) (w : world) :
  In v (snd (scan_database (open_database base db_file))) ->
  (forall s, v <> PStr s) ->
  exists w' e, export_database base output_file db_file w = (w', inl e).
Proof.
  intros Hin Hv. unfold export_database.
  destruct (scan_database (open_database base db_file)) as [cs ps]. simpl in Hin.
  match goal with
  | |- context [save_to_markdown ?b cs ps] =>
      destruct (@save_to_markdown_raises b cs ps v Hin Hv) as (text & e & ->)
  end.
  eauto.
Qed.

Lemma export_databases_raises (base : fsnode) (output_file : pystr) (db_file : path)
  (v : pyval) (db_files : list path) :
  In db_file db_files ->
  In v (snd (scan_database (open_database base db_file))) ->
  (forall s, v <> PStr s) ->
  forall w, exists w' e, export_databases base output_file db_files w = (w', inl e).
Proof.
  intros Hdb Hin Hv. induction db_files as [|d rest IH]; [destruct Hdb|].
  intros w. simpl.
  destruct (export_database base output_file d w) as [w1 [e|[]]] eqn:H1; [eauto|].
  destruct Hdb as [-> | Hdb].
  - destruct (@export_database_raises base output_file db_file v w Hin Hv)
      as (w2 & e & H2). congruence.
  - apply (IH Hdb).
Qed.

(** C10. A [textDescription] is stored whatever its type.  A stored prompt
    that is not a string makes [save_to_markdown] end in an exception, and
    since nothing catches it the whole run ends in that exception. *)
Theorem non_string_prompt_aborts_run :
  (forall key value d v,
      parse_value value = Some (PDict d) ->
      dict_get d (lit "textDescription") = Some v ->
      prompts_step [] (key, value) = [v])
  /\ (forall before conversations prompts v,
      In v prompts -> (forall s, v <> PStr s) ->
      exists text e, save_to_markdown before conversations prompts = (text, inl e))
  /\ (forall now base w db_file v,
      In db_file (db_files_of base) ->
      In v (snd (scan_database (open_database base db_file))) ->
      (forall s, v <> PStr s) ->
      exists w' e, scan_directory now (Some base) w = (w', inl e)).
Proof.
  split; [|split].
  - intros key value d v Hparse Hv. unfold prompts_step. now rewrite Hparse, Hv.
  - intros before conversations prompts v. apply save_to_markdown_raises.
  - intros now base w db_file v Hdb Hin Hv. unfold scan_directory.
    destruct (mkdir_output (print Scanning_directory w)) as [w1 [e|[]]]; [eauto|].
    destruct (db_files_of base) as [|d rest] eqn:Hfiles; [destruct Hdb|].
    match goal with
    | |- context [export_databases base ?o (d :: rest) ?w0] =>
        destruct (@export_databases_raises base o db_file v (d :: rest) Hdb Hin Hv w0)
          as (w2 & e & ->)
    end.
    eauto.
Qed.

(** C6 (amended). When nothing below an existing root is named
    [state.vscdb] or [state.vscdb.backup], and [output] is not taken by a
    non-directory, the run prints that no database file was found and ends
    without touching any output file; the output directory exists at the
    end, created before the locator ran. *)
Theorem no_database_files_run :
  forall now base w,
    (forall p, reaches base p ->
               file_name p <> lit "state.vscdb"
               /\ file_name p <> lit "state.vscdb.backup") ->
    output_dir w <> NotDirectory ->
    scan_directory now (Some base) w
    = (mk_world (console w ++ [Scanning_directory; No_database_files_found])
         Directory (output_files w), inr tt).
Proof.
  intros now base w Hnone Hout.
  assert (Hfiles : db_files_of base = []).
  { destruct (db_files_of base) as [|p rest] eqn:Hf; [reflexivity|]. exfalso.
    assert (Hp : In p (db_files_of base)) by (rewrite Hf; now left).
    apply db_files_spec in Hp as (Hp & Hn).
    destruct (Hnone p Hp) as [H1 H2]. destruct Hn; contradiction. }
  unfold scan_directory, mkdir_output. simpl.
  destruct (output_dir w); try contradiction; rewrite Hfiles; unfold print; simpl;
    now rewrite <- app_assoc.
Qed.

(* ------------------------------------------------------------------ *)
(** ** Further properties of the extraction *)

Lemma row_conversations_length (r : row) : length (row_conversations r) <= 1.
Proof.
  unfold row_conversations, conversations_step. destruct r as [key value].
  destruct (parse_value value) as [[]|]; simpl; try lia.
  destruct (dict_get items _); simpl; lia.
Qed.

Lemma conversations_of_rows_length (rows : list row) :
  length (conversations_of_rows rows) <= length rows.
Proof.
  rewrite conversations_of_rows_flat.
  induction rows as [|r rows IH]; simpl; [lia|].
  rewrite length_app. pose proof (row_conversations_length r). lia.
Qed.

Lemma extract_conversations_length (cursor : database) (table_name : pystr) :
  length (extract_conversations cursor table_name) <= 1000.
Proof.
  unfold extract_conversations, fetch_rows.
  destruct (db_rows cursor table_name) as [rows|]; unfold option_map;
    [|apply Nat.le_0_l].
  etransitivity; [apply conversations_of_rows_length|].
  apply firstn_le_length.
Qed.

(** The query reads 1000 rows at most: when a table holds more, the rows
    after the first thousand add nothing to either pass. *)
Theorem only_first_thousand_rows_are_read :
  forall cursor table_name rows extra,
    db_rows cursor table_name = Some (rows ++ extra) ->
    length rows = 1000 ->
    extract_conversations cursor table_name = conversations_of_rows rows
    /\ extract_prompts cursor table_name = prompts_of_rows rows.
Proof.
  intros cursor table_name rows extra Hrows Hlen.
  unfold extract_conversations, extract_prompts, fetch_rows.
  rewrite Hrows. unfold option_map. rewrite <- Hlen.
  rewrite firstn_app, Nat.sub_diag, firstn_all. cbn [firstn].
  rewrite app_nil_r. split; reflexivity.
Qed.

Lemma scan_tables_flat (cursor : database) (tables : list pystr) :
  forall acc,
    fold_left (scan_table cursor) tables acc
    = (fst acc ++ flat_map (extract_conversations cursor) tables,
       snd acc ++ flat_map (extract_prompts cursor) tables).
Proof.
  induction tables as [|t tables IH]; intros [cs ps]; simpl.
  - now rewrite !app_nil_r.
  - rewrite IH. unfold scan_table. simpl. now rewrite <- !app_assoc.
Qed.

Lemma scan_database_flat (cursor : database) :
  scan_database (Some cursor)
  = (flat_map (extract_conversations cursor) (db_tables cursor),
     flat_map (extract_prompts cursor) (db_tables cursor)).
Proof. unfold scan_database. now rewrite scan_tables_flat. Qed.

(** The records of a database file are those of its tables, table after
    table in the order of [sqlite_master]; no table gives more than 1000
    conversations. *)
Theorem scan_database_accumulates :
  forall cursor,
    scan_database (Some cursor)
    = (flat_map (extract_conversations cursor) (db_tables cursor),
       flat_map (extract_prompts cursor) (db_tables cursor))
    /\ length (fst (scan_database (Some cursor))) <= 1000 * length (db_tables cursor).
Proof.
  intros cursor. split; [apply scan_database_flat|].
  rewrite scan_database_flat. cbn [fst].
  induction (db_tables cursor) as [|t tables IH]; cbn [flat_map length].
  - apply Nat.le_0_l.
  - rewrite length_app. pose proof (extract_conversations_length cursor t) as Ht.
    rewrite Nat.mul_succ_r, Nat.add_comm. now apply Nat.add_le_mono.
Qed.

(** A table whose [SELECT key, value] raises is reported and passed over:
    the database file yields what it would yield without that table. *)
Theorem failing_table_is_passed_over :
  forall tables_before table_name tables_after rows_of,
    rows_of table_name = None ->
    let cursor := mk_database (tables_before ++ table_name :: tables_after) rows_of in
    scan_database (Some cursor)
    = scan_database (Some (mk_database (tables_before ++ tables_after) rows_of))
    /\ extract_conversations_console cursor table_name
       = [Searching_for_conversations table_name;
          Error_extracting_conversations table_name]
    /\ extract_prompts_console cursor table_name
       = [Searching_for_prompts table_name; Error_extracting_prompts table_name].
Proof.
  intros tables_before table_name tables_after rows_of Hnone cursor.
  assert (Hfetch : forall tables, fetch_rows (mk_database tables rows_of) table_name = None)
    by (intros tables; unfold fetch_rows; simpl; now rewrite Hnone).
  split; [|split].
  - rewrite !scan_database_flat. unfold cursor. simpl.
    rewrite !flat_map_app. simpl.
    unfold extract_conversations at 2, extract_prompts at 2.
    rewrite Hfetch. simpl.
    f_equal; f_equal; apply flat_map_ext; intros t;
      unfold extract_conversations, extract_prompts, fetch_rows; reflexivity.
  - unfold extract_conversations_console, cursor. now rewrite Hfetch.
  - unfold extract_prompts_console, cursor. now rewrite Hfetch.
Qed.

(** A value that is falsy in Python is never parsed: NULL, zero, the empty
    text and bytes that decode to it give no record, whatever [json.loads]
    would do.  A number that is not zero is not text, and the row is
    skipped. *)
Theorem falsy_and_numeric_values_yield_nothing :
  forall key,
    row_conversations (key, SqlNull) = [] /\ row_prompts (key, SqlNull) = []
    /\ row_conversations (key, SqlText []) = [] /\ row_prompts (key, SqlText []) = []
    /\ (forall z, row_conversations (key, SqlInt z) = []
                  /\ row_prompts (key, SqlInt z) = [])
    /\ (forall f, row_conversations (key, SqlReal f) = []
                  /\ row_prompts (key, SqlReal f) = [])
    /\ (forall b, utf8_decode b = Some [] ->
                  row_conversations (key, SqlBlob b) = []
                  /\ row_prompts (key, SqlBlob b) = []).
Proof.
  intros key. unfold row_conversations, row_prompts, conversations_step, prompts_step.
  repeat split; try reflexivity.
  - simpl. now destruct (Z.eqb z 0).
  - simpl. now destruct (Z.eqb z 0).
  - simpl. now destruct (PrimFloat.eqb f 0).
  - simpl. now destruct (PrimFloat.eqb f 0).
  - simpl. now rewrite H.
  - simpl. now rewrite H.
Qed.

Lemma row_conversations_spec (key value : sqlval) (c : conversation) :
  In c (row_conversations (key, value))
  <-> exists d,
      parse_value value = Some (PDict d)
      /\ dict_get d (lit "conversation") = Some (conv_conversation c)
      /\ conv_key c = key.
Proof.
  unfold row_conversations, conversations_step. split.
  - destruct (parse_value value) as [[| | | | | |d]|]; try (intros []).
    destruct (dict_get d (lit "conversation")) as [v|] eqn:Hv; [|intros []].
    intros [<- | []]. exists d. auto.
  - intros (d & -> & Hv & <-). rewrite Hv. left. now destruct c.
Qed.

(** The conversations of a table are exactly the [conversation] values of
    the fetched rows that parse to a mapping with that key, each under the
    key of its row: nothing is made up, nothing of that shape is left out,
    and the value is taken whatever its type. *)
Theorem extracted_conversations_are_the_rows :
  forall cursor table_name c,
    In c (extract_conversations cursor table_name)
    <-> exists rows value d,
        fetch_rows cursor table_name = Some rows
        /\ In (conv_key c, value) rows
        /\ parse_value value = Some (PDict d)
        /\ dict_get d (lit "conversation") = Some (conv_conversation c).
Proof.
  intros cursor table_name c. unfold extract_conversations.
  destruct (fetch_rows cursor table_name) as [rows|].
  - rewrite conversations_of_rows_flat, in_flat_map. split.
    + intros ([key value] & Hin & Hc).
      apply row_conversations_spec in Hc as (d & Hp & Hv & <-).
      now exists rows, value, d.
    + intros (rows' & value & d & Hrows & Hin & Hp & Hv).
      injection Hrows as <-. exists (conv_key c, value). split; [assumption|].
      apply row_conversations_spec. now exists d.
  - split; [intros [] | intros (rows & _ & _ & H & _); discriminate H].
Qed.

Lemma row_prompts_spec (key value : sqlval) (v : pyval) :
  In v (row_prompts (key, value))
  <-> (exists d,
          parse_value value = Some (PDict d)
          /\ dict_get d (lit "textDescription") = Some v)
      \/ (exists items d,
             parse_value value = Some (PList items)
             /\ In (PDict d) items
             /\ dict_get d (lit "textDescription") = Some v).
Proof.
  unfold row_prompts, prompts_step. split.
  - destruct (parse_value value) as [[| | | | |items|d]|]; try (intros []).
    + rewrite prompts_items_loop. simpl. rewrite in_map_iff.
      intros (item & <- & Hitem). apply filter_In in Hitem as [Hin Hhas].
      right. destruct item as [| | | | | |d]; try discriminate Hhas.
      exists items, d. unfold has_text_description, dict_has in Hhas.
      unfold text_description.
      destruct (dict_get d (lit "textDescription")); [auto | discriminate].
    + destruct (dict_get d (lit "textDescription")) as [w|] eqn:Hw; [|intros []].
      intros [<- | []]. left. now exists d.
  - intros [(d & -> & Hv) | (items & d & -> & Hin & Hv)].
    + rewrite Hv. now left.
    + rewrite prompts_items_loop. simpl. apply in_map_iff.
      exists (PDict d). split.
      * unfold text_description. now rewrite Hv.
      * apply filter_In. split; [assumption|].
        unfold has_text_description, dict_has. now rewrite Hv.
Qed.

(** The prompts of a table are exactly the [textDescription] values of the
    fetched rows that parse to a mapping with that key, and of the mapping
    elements with that key of the rows that parse to an array.  Elements
    nested deeper are not looked at. *)
Theorem extracted_prompts_are_the_rows :
  forall cursor table_name v,
    In v (extract_prompts cursor table_name)
    <-> exists rows key value,
        fetch_rows cursor table_name = Some rows
        /\ In (key, value) rows
        /\ ((exists d,
                parse_value value = Some (PDict d)
                /\ dict_get d (lit "textDescription") = Some v)
            \/ (exists items d,
                   parse_value value = Some (PList items)
                   /\ In (PDict d) items
                   /\ dict_get d (lit "textDescription") = Some v)).
Proof.
  intros cursor table_name v. unfold extract_prompts.
  destruct (fetch_rows cursor table_name) as [rows|].
  - rewrite prompts_of_rows_flat, in_flat_map. split.
    + intros ([key value] & Hin & Hv). apply row_prompts_spec in Hv.
      now exists rows, key, value.
    + intros (rows' & key & value & Hrows & Hin & Hv).
      injection Hrows as <-. exists (key, value). split; [assumption|].
      now apply row_prompts_spec.
  - split; [intros [] | intros (rows & _ & _ & H & _); discriminate H].
Qed.

(* ------------------------------------------------------------------ *)
(** ** Further properties of the rendering *)

Lemma f_write_raising (s : pystr) : encodable s = false -> raising (f_write s).
Proof.
  intros H buf. exists [], UnicodeEncodeError.
  now rewrite f_write_raises, app_nil_r.
Qed.

Lemma raising_not_returning (A : Type) (c : io A) (buf : pystr) (a : A) :
  raising c -> snd (c buf) <> inr a.
Proof. intros Hc. destruct (Hc buf) as (written & e & ->). discriminate. Qed.

Lemma write_conversation_renderable (conv : conversation) (buf : pystr) :
  renderable conv = true ->
  write_conversation conv buf = (buf ++ conversation_text conv, inr tt).
Proof.
  unfold renderable, conversation_text. intros H.
  apply andb_true_iff in H as [Hkey Hmessages].
  destruct (py_iter (conv_conversation conv)) as [e|messages] eqn:Hiter;
    [discriminate Hmessages|].
  now apply write_conversation_ok.
Qed.

Lemma write_conversation_not_renderable (conv : conversation) :
  renderable conv = false -> raising (write_conversation conv).
Proof.
  unfold renderable. intros H. apply andb_false_iff in H as [Hkey | Hmessages].
  - unfold write_conversation. apply raising_bind_left, f_write_raising.
    now rewrite !encodable_app, Hkey, andb_false_r.
  - destruct (py_iter (conv_conversation conv)) as [e|messages] eqn:Hiter.
    + now apply write_conversation_not_iterable with e.
    + now apply write_conversation_bad_entry with messages.
Qed.

Lemma write_conversations_renderable (conversations : list conversation) (buf : pystr) :
  forallb renderable conversations = true ->
  write_conversations conversations buf
  = (buf ++ conversations_part conversations, inr tt).
Proof.
  intros Hok. destruct conversations as [|c cs].
  - unfold write_conversations, conversations_part. now rewrite f_write_ok.
  - unfold write_conversations, conversations_part. unfold bind at 1.
    rewrite f_write_ok by reflexivity.
    rewrite (for_each_ok write_conversation conversation_text).
    + now rewrite <- !app_assoc.
    + intros conv b Hconv. apply write_conversation_renderable.
      rewrite forallb_forall in Hok. now apply Hok.
Qed.

Lemma write_conversations_not_renderable (conversations : list conversation) :
  forallb renderable conversations = false ->
  raising (write_conversations conversations).
Proof.
  intros Hbad. destruct (forallb_false_In _ _ Hbad) as (conv & Hin & Hconv).
  unfold write_conversations. destruct conversations as [|c cs]; [destruct Hin|].
  apply raising_bind_right; [apply appending_f_write | intros _].
  apply (raising_for_each write_conversation _ conv);
    [apply appending_write_conversation | assumption |].
  now apply write_conversation_not_renderable.
Qed.

Lemma write_prompt_not_ok (i : nat) (prompt : pyval) :
  prompt_ok prompt = false -> raising (write_prompt (i, prompt)).
Proof.
  intros Hbad.
  destruct prompt as [| | | |s| |];
    try (apply write_prompt_raises; intros s'; discriminate).
  simpl in Hbad. intros buf. exists [], UnicodeEncodeError.
  unfold write_prompt, bind, lift, py_strip, ret. rewrite app_nil_r.
  apply f_write_raises.
  now rewrite !encodable_app, encodable_strip, Hbad, !andb_false_r.
Qed.

Lemma written_prompts_all (prompts : list pyval) :
  forallb prompt_ok prompts = true -> map PStr (written_prompts prompts) = prompts.
Proof.
  induction prompts as [|p prompts IH]; [reflexivity|].
  cbn [forallb]. intros H. apply andb_true_iff in H as [Hp Hrest].
  destruct p; try discriminate Hp. cbn [written_prompts]. simpl in Hp.
  rewrite Hp. cbn [map]. now rewrite IH.
Qed.

Lemma write_prompt_loop_all (prompts : list pyval) :
  forall i buf,
    forallb prompt_ok prompts = true ->
    for_each (combine (seq i (length prompts)) prompts) write_prompt buf
    = (buf ++ numbered i (written_prompts prompts), inr tt).
Proof.
  induction prompts as [|p prompts IH]; intros i buf H;
    cbn [length seq combine for_each written_prompts].
  - unfold ret. simpl. now rewrite app_nil_r.
  - cbn [forallb] in H. apply andb_true_iff in H as [Hp Hrest].
    destruct p; try discriminate Hp. simpl in Hp. rewrite Hp.
    unfold bind. rewrite write_prompt_ok by assumption.
    rewrite IH by assumption. cbn [numbered]. now rewrite <- !app_assoc.
Qed.

Lemma write_prompts_all (prompts : list pyval) (buf : pystr) :
  forallb prompt_ok prompts = true ->
  write_prompts prompts buf = (buf ++ prompts_part prompts, inr tt).
Proof.
  intros H. destruct prompts as [|p prompts].
  - simpl. unfold ret. now rewrite app_nil_r.
  - unfold write_prompts, prompts_part, enumerate. unfold bind at 1.
    rewrite f_write_ok by reflexivity.
    rewrite write_prompt_loop_all by assumption. now rewrite <- !app_assoc.
Qed.

Lemma write_prompts_not_ok (prompts : list pyval) :
  forallb prompt_ok prompts = false -> raising (write_prompts prompts).
Proof.
  intros Hbad. destruct (forallb_false_In _ _ Hbad) as (v & Hin & Hv).
  unfold write_prompts. destruct prompts as [|p ps]; [destruct Hin|].
  apply raising_bind_right; [apply appending_f_write | intros _].
  destruct (In_enumerate _ _ Hin 1) as (i & Hi).
  apply (raising_for_each write_prompt _ (i, v));
    [apply appending_write_prompt | assumption | now apply write_prompt_not_ok].
Qed.

(** The text of one database file.  When every record and every prompt is
    accepted, [save_to_markdown] appends the conversations heading and a
    subsection for each record (or the marker line when there is none),
    then, when there are prompts, their heading and one numbered line for
    each, and returns. *)
Theorem save_to_markdown_document :
  forall before conversations prompts,
    forallb renderable conversations = true ->
    forallb prompt_ok prompts = true ->
    save_to_markdown before conversations prompts
    = (before
       ++ match conversations with
          | [] => lit "# No conversations found." ++ nl
          | _ :: _ =>
              lit "# Conversations" ++ nl
              ++ concat (map conversation_text conversations)
          end
       ++ match prompts with
          | [] => []
          | _ :: _ =>
              nl ++ lit "# Prompts" ++ nl ++ numbered 1 (written_prompts prompts)
          end,
       inr tt)
    /\ map PStr (written_prompts prompts) = prompts.
Proof.
  intros before conversations prompts Hconvs Hprompts.
  split; [|now apply written_prompts_all].
  unfold save_to_markdown, bind.
  rewrite write_conversations_renderable by assumption.
  rewrite write_prompts_all by assumption.
  now rewrite <- app_assoc.
Qed.

(** [save_to_markdown] returns without an exception exactly when every
    record and every prompt is accepted: one record that is not, or one
    prompt that is not an encodable string, ends the call in an
    exception. *)
Theorem save_to_markdown_returns_iff :
  forall before conversations prompts,
    snd (save_to_markdown before conversations prompts) = inr tt
    <-> forallb renderable conversations = true
        /\ forallb prompt_ok prompts = true.
Proof.
  intros before conversations prompts. split.
  - intros Hret.
    destruct (forallb renderable conversations) eqn:Hconvs.
    + split; [reflexivity|].
      destruct (forallb prompt_ok prompts) eqn:Hprompts; [reflexivity|].
      exfalso. revert Hret. apply raising_not_returning.
      apply raising_bind_right;
        [apply appending_write_conversations | intros _].
      now apply write_prompts_not_ok.
    + exfalso. revert Hret. apply raising_not_returning.
      apply raising_bind_left. now apply write_conversations_not_renderable.
  - intros [Hconvs Hprompts]. unfold save_to_markdown, bind.
    rewrite write_conversations_renderable by assumption.
    now rewrite write_prompts_all by assumption.
Qed.

Lemma write_conversation_returns_iff (conv : conversation) (buf : pystr) :
  snd (write_conversation conv buf) = inr tt <-> renderable conv = true.
Proof.
  split.
  - intros Hret. destruct (renderable conv) eqn:Hconv; [reflexivity|].
    exfalso. revert Hret. apply raising_not_returning.
    now apply write_conversation_not_renderable.
  - intros Hconv. now rewrite write_conversation_renderable.
Qed.

(** The shapes of a [conversation] field that is not an array.  A string
    or a mapping is iterated, its characters or keys are no mappings, and
    the record renders only when the string or mapping is empty.  [None],
    a boolean or a number cannot be iterated: the key line is written and
    [TypeError] raised. *)
Theorem conversation_field_shapes :
  forall key buf,
    encodable (format_key key) = true ->
    (forall s, snd (write_conversation (mk_conversation key (PStr s)) buf) = inr tt
               <-> s = [])
    /\ (forall d, snd (write_conversation (mk_conversation key (PDict d)) buf) = inr tt
                  <-> d = [])
    /\ (forall v,
          py_iter v = inl TypeError ->
          write_conversation (mk_conversation key v) buf
          = (buf ++ lit "## Key: " ++ format_key key ++ nl, inl TypeError))
    /\ (forall v,
          py_iter v = inl TypeError
          <-> v = PNone \/ (exists b, v = PBool b) \/ (exists z, v = PInt z)
              \/ (exists f, v = PFloat f)).
Proof.
  intros key buf Hkey. split; [|split; [|split]].
  - intros s. rewrite write_conversation_returns_iff.
    unfold renderable. simpl. rewrite Hkey. simpl.
    destruct s; simpl; split; congruence.
  - intros d. rewrite write_conversation_returns_iff.
    unfold renderable. simpl. rewrite Hkey. simpl.
    destruct d; simpl; split; congruence.
  - intros v Hv. unfold write_conversation, bind at 1.
    cbn [conv_key conv_conversation].
    rewrite f_write_ok
      by (rewrite !encodable_app, Hkey, encodable_lit; reflexivity).
    rewrite Hv. reflexivity.
  - intros v. split.
    + destruct v; simpl; try discriminate; intros _; eauto 6.
    + intros [-> | [(b & ->) | [(z & ->) | (f & ->)]]]; reflexivity.
Qed.

(* ------------------------------------------------------------------ *)
(** ** Further properties of the locator *)

Lemma primary_is_not_backup : lit "state.vscdb" <> lit "state.vscdb.backup".
Proof. intros H. apply (f_equal (@length N)) in H. discriminate H. Qed.

Lemma rglob_prefix (pattern : pystr) (n : fsnode) (here p : path) :
  In p (rglob pattern here n) -> exists q, p = here ++ q /\ q <> [].
Proof.
  intros Hp. apply rglob_spec in Hp as (q & -> & Hq & _).
  exists q. split; [reflexivity | now apply reaches_nonempty with n].
Qed.

Lemma rglob_nodup (pattern : pystr) (n : fsnode) :
  well_formed n -> forall here, NoDup (rglob pattern here n).
Proof.
  induction n as [name content | name entries IH] using fsnode_induction;
    intros Hwf here; simpl; [constructor|].
  inversion Hwf as [|name' entries' Hnames Hentries]; subst.
  apply NoDup_app.
  - destruct (has_entry entries pattern); repeat constructor. intros [].
  - clear Hwf. induction entries as [|e entries IHe]; simpl; [constructor|].
    inversion IH as [|? ? IHhead IHtail]; subst.
    inversion Hnames as [|? ? Hfresh Hrest]; subst.
    apply NoDup_app.
    + apply IHhead. apply Hentries. now left.
    + apply IHe; [assumption | assumption |].
      intros e' He'. apply Hentries. now right.
    + intros p Hp Hp'. apply in_flat_map in Hp' as (e' & He' & Hp').
      apply rglob_prefix in Hp as (q & -> & _).
      apply rglob_prefix in Hp' as (q' & Heq & _).
      rewrite <- !app_assoc in Heq. apply app_inv_head in Heq.
      injection Heq as Heq _. apply Hfresh. rewrite Heq. now apply in_map.
  - intros p Hp Hp'.
    destruct (has_entry entries pattern); [|destruct Hp].
    destruct Hp as [<- | []].
    apply in_flat_map in Hp' as (e & He & Hp').
    apply rglob_prefix in Hp' as (q & Heq & Hq).
    rewrite <- app_assoc in Heq. apply app_inv_head in Heq.
    injection Heq as _ Heq. now subst q.
Qed.

(** In a tree where no directory lists a name twice, the locator returns
    no path twice: every database file is scanned once in a run. *)
Theorem locator_returns_each_path_once :
  forall base, well_formed base -> NoDup (db_files_of base).
Proof.
  intros base Hwf. unfold db_files_of. apply NoDup_app.
  - now apply rglob_nodup.
  - now apply rglob_nodup.
  - intros p Hp Hp'.
    apply rglob_spec in Hp as (q & Hq & _ & Hname).
    apply rglob_spec in Hp' as (q' & Hq' & _ & Hname').
    simpl in Hq, Hq'. subst q q'.
    apply primary_is_not_backup. congruence.
Qed.

Lemma find_by_name (entries : list fsnode) (e : fsnode) :
  NoDup (map node_name entries) -> In e entries ->
  find (fun x => pystr_eqb (node_name x) (node_name e)) entries = Some e.
Proof.
  induction entries as [|x entries IH]; intros Hnames Hin; [destruct Hin|].
  simpl. inversion Hnames as [|? ? Hfresh Hrest]; subst.
  destruct Hin as [-> | Hin].
  - now rewrite pystr_eqb_refl.
  - destruct (pystr_eqb (node_name x) (node_name e)) eqn:Hx.
    + apply pystr_eqb_eq in Hx. exfalso. apply Hfresh. rewrite Hx.
      now apply in_map.
    + now apply IH.
Qed.

Lemma reaches_resolve (n : fsnode) (q : path) :
  reaches n q -> well_formed n ->
  exists e, resolve n q = Some e /\ node_name e = file_name q.
Proof.
  induction 1 as [name entries e He | name entries e p He Hp IH]; intros Hwf;
    inversion Hwf as [|name' entries' Hnames Hentries]; subst; simpl.
  - rewrite (@find_by_name entries e Hnames He). now exists e.
  - rewrite (@find_by_name entries e Hnames He).
    destruct (IH (Hentries e He)) as (e' & Hres & Hname).
    exists e'. split; [assumption|].
    rewrite Hname. symmetry. apply file_name_cons.
    now apply reaches_nonempty with e.
Qed.

(** In such a tree every path the locator returns leads to an entry of one
    of the two names, and that entry is what [scan_database] opens: the
    content of a file, nothing for a directory of that name. *)
Theorem located_paths_resolve :
  forall base p,
    well_formed base ->
    In p (db_files_of base) ->
    exists e,
      resolve base p = Some e
      /\ (node_name e = lit "state.vscdb" \/ node_name e = lit "state.vscdb.backup")
      /\ open_database base p
         = match e with
           | File _ content => content
           | Dir _ _ => None
           end.
Proof.
  intros base p Hwf Hp. apply db_files_spec in Hp as (Hreach & Hname).
  destruct (reaches_resolve Hreach Hwf) as (e & Hres & He).
  exists e. split; [assumption|]. split; [now rewrite He|].
  unfold open_database. rewrite Hres. now destruct e.
Qed.

(* ------------------------------------------------------------------ *)
(** ** Further properties of the run *)

(** A database file that cannot be opened (not a database, unreadable, a
    directory of that name) does not stop the run: the error is printed,
    the marker line is appended for it, and the loop goes on. *)
Theorem unopenable_database_leaves_marker :
  forall base output_file db_file w,
    open_database base db_file = None ->
    export_database base output_file db_file w
    = (mk_world
         (console w ++ [Scanning_database db_file; Error_scanning_database db_file])
         (output_dir w)
         (file_store (output_files w) output_file
            (content_of w output_file ++ lit "# No conversations found." ++ nl)),
       inr tt).
Proof.
  intros base output_file db_file w Hopen.
  unfold export_database, content_of. rewrite Hopen.
  unfold scan_database, scan_database_console, save_to_markdown, bind.
  unfold write_conversations. rewrite f_write_ok by reflexivity. reflexivity.
Qed.

(** The loop over the database files composes: a list of files is exported
    by exporting a first part and, when that part went through, the rest
    from where it ended.  An exception in the first part ends the loop, and
    no later file is exported. *)
Theorem export_databases_app :
  forall base output_file first rest w,
    export_databases base output_file (first ++ rest) w
    = match export_databases base output_file first w with
      | (w', inr _) => export_databases base output_file rest w'
      | (w', inl e) => (w', inl e)
      end.
Proof.
  intros base output_file first rest.
  induction first as [|d first IH]; intros w; simpl; [reflexivity|].
  destruct (export_database base output_file d w) as [w1 [e|u]]; [reflexivity|].
  apply IH.
Qed.

Lemma file_content_store_other (files : list (pystr * pystr)) (name other c : pystr) :
  other <> name ->
  file_content (file_store files name c) other = file_content files other.
Proof.
  intros Hother. induction files as [|[n c'] files IH]; simpl.
  - destruct (pystr_eqb name other) eqn:H; [|reflexivity].
    apply pystr_eqb_eq in H. congruence.
  - destruct (pystr_eqb n name) eqn:Hn; simpl.
    + apply pystr_eqb_eq in Hn. subst n.
      destruct (pystr_eqb name other) eqn:H; [|reflexivity].
      apply pystr_eqb_eq in H. congruence.
    + destruct (pystr_eqb n other); [reflexivity | exact IH].
Qed.

Lemma table_console_events (cursor : database) (tables : list pystr) :
  forallb database_event
    (flat_map (fun t => extract_conversations_console cursor t
                        ++ extract_prompts_console cursor t) tables) = true.
Proof.
  induction tables as [|t tables IH]; [reflexivity|].
  cbn [flat_map]. rewrite !forallb_app, IH.
  unfold extract_conversations_console, extract_prompts_console.
  now destruct (fetch_rows cursor t).
Qed.

Lemma scan_database_console_events (db_path : path) (db : option database) :
  forallb database_event (scan_database_console db_path db) = true.
Proof.
  unfold scan_database_console. destruct db as [cursor|]; [|reflexivity].
  cbn [forallb database_event]. apply table_console_events.
Qed.

Lemma export_database_frame (base : fsnode) (output_file : pystr) (db_file : path)
  (w : world) :
  let w' := fst (export_database base output_file db_file w) in
  output_dir w' = output_dir w
  /\ (forall name, name <> output_file ->
                   file_content (output_files w') name = file_content (output_files w) name)
  /\ exists events,
       console w' = console w ++ events /\ forallb database_event events = true.
Proof.
  unfold export_database.
  destruct (scan_database (open_database base db_file)) as [cs ps].
  destruct (save_to_markdown _ cs ps) as [after r]. simpl.
  split; [reflexivity|]. split.
  - intros name Hname. now apply file_content_store_other.
  - eexists. split; [reflexivity | apply scan_database_console_events].
Qed.

Lemma export_databases_frame (base : fsnode) (output_file : pystr) (db_files : list path) :
  forall w,
    let w' := fst (export_databases base output_file db_files w) in
    output_dir w' = output_dir w
    /\ (forall name, name <> output_file ->
                     file_content (output_files w') name
                     = file_content (output_files w) name)
    /\ exists events,
         console w' = console w ++ events /\ forallb database_event events = true.
Proof.
  induction db_files as [|d rest IH]; intros w; simpl.
  - split; [reflexivity|]. split; [reflexivity|].
    exists []. now rewrite app_nil_r.
  - destruct (export_database_frame base output_file d w) as (Hd & Hf & ev & Hc & Hev).
    destruct (export_database base output_file d w) as [w1 [e|u]]; simpl in *.
    + split; [assumption|]. split; [assumption|]. now exists ev.
    + destruct (IH w1) as (Hd' & Hf' & ev' & Hc' & Hev').
      split; [congruence|]. split.
      * intros name Hname. rewrite (Hf' name Hname). now apply Hf.
      * exists (ev ++ ev'). rewrite Hc', Hc, <- app_assoc, forallb_app, Hev, Hev'.
        auto.
Qed.

Lemma export_databases_content (base : fsnode) (output_file : pystr) (db_files : list path) :
  forall w, exists appended,
    content_of (fst (export_databases base output_file db_files w)) output_file
    = content_of w output_file ++ appended.
Proof.
  induction db_files as [|d rest IH]; intros w; simpl.
  - exists []. now rewrite app_nil_r.
  - pose proof (export_database_content base output_file d w) as Hd.
    destruct (export_database base output_file d w) as [w1 [e|u]]; simpl in *.
    + eauto.
    + destruct (IH w1) as (appended & Hrest). rewrite Hrest, Hd.
      eexists. now rewrite <- app_assoc.
Qed.

(** A run writes to one file only, and only at its end: every other file
    of the output directory is as it was, the content the run's file had
    is a prefix of what it has afterwards, the console is only added to,
    and an output directory that was there stays. *)
Theorem run_appends_to_one_file :
  forall now base w,
    let w' := fst (scan_directory now base w) in
    (forall name,
        name <> output_file_name now ->
        file_content (output_files w') name = file_content (output_files w) name)
    /\ (exists appended,
           content_of w' (output_file_name now)
           = content_of w (output_file_name now) ++ appended)
    /\ (exists events, console w' = console w ++ events)
    /\ (output_dir w = Directory -> output_dir w' = Directory).
Proof.
  intros now base w. unfold scan_directory.
  assert (Hnil : forall s : pystr, exists appended, s = s ++ appended)
    by (intros s; exists []; now rewrite app_nil_r).
  destruct base as [base|].
  - unfold mkdir_output. cbn [print output_dir console output_files].
    assert (Hgo :
      let w0 := mk_world (console w ++ [Scanning_directory]) Directory (output_files w) in
      let w' :=
        fst match db_files_of base with
            | [] => (print No_database_files_found w0, inr tt)
            | _ :: _ =>
                match
                  export_databases base (output_file_name now) (db_files_of base)
                    (print (Found_database_files (length (db_files_of base))) w0)
                with
                | (w1, inr _) =>
                    (print (Data_extraction_completed (output_file_name now)) w1,
                     inr tt)
                | (w1, inl e) => (w1, inl e)
                end
            end in
      (forall name,
          name <> output_file_name now ->
          file_content (output_files w') name = file_content (output_files w) name)
      /\ (exists appended,
             content_of w' (output_file_name now)
             = content_of w (output_file_name now) ++ appended)
      /\ (exists events, console w' = console w ++ events)
      /\ (output_dir w = Directory -> output_dir w' = Directory)).
    { intros w0 w'. subst w'.
      destruct (db_files_of base) as [|d rest] eqn:Hfiles.
      - cbn. split; [reflexivity|]. split; [apply Hnil|]. split; [|reflexivity].
        exists [Scanning_directory; No_database_files_found].
        now rewrite <- app_assoc.
      - set (w1 := print _ w0).
        destruct (export_databases_frame base (output_file_name now) (d :: rest) w1)
          as (Hd & Hf & ev & Hc & _).
        destruct (export_databases_content base (output_file_name now) (d :: rest) w1)
          as (appended & Ha).
        assert (Hevents : exists events,
                  console (fst (export_databases base (output_file_name now)
                                  (d :: rest) w1))
                  = console w ++ events).
        { exists ([Scanning_directory; Found_database_files (length (d :: rest))] ++ ev).
          rewrite Hc. unfold w1, w0, print. cbn [console].
          now rewrite <- !app_assoc. }
        destruct (export_databases base (output_file_name now) (d :: rest) w1)
          as [w2 [e|u]]; cbn [fst] in *.
        + split; [exact Hf|]. split; [now exists appended|].
          split; [exact Hevents | intros _; exact Hd].
        + unfold print. cbn [output_files console output_dir].
          split; [exact Hf|]. split; [now exists appended|]. split; [|intros _; exact Hd].
          destruct Hevents as (events & ->).
          exists (events ++ [Data_extraction_completed (output_file_name now)]).
          now rewrite <- app_assoc. }
    destruct (output_dir w) eqn:Hdir.
    + exact Hgo.
    + exact Hgo.
    + cbn. split; [reflexivity|]. split; [apply Hnil|].
      split; [now exists [Scanning_directory] | discriminate].
  - cbn. split; [reflexivity|]. split; [apply Hnil|]. split; [|auto].
    exists [Scanning_directory; Directory_does_not_exist].
    now rewrite <- app_assoc.
Qed.

Lemma database_events_not_completed (events : list event) (output_file : pystr) :
  forallb database_event events = true ->
  ~ In (Data_extraction_completed output_file) events.
Proof.
  intros Hall Hin. rewrite forallb_forall in Hall.
  apply Hall in Hin. discriminate Hin.
Qed.

(** The completion line is printed exactly when the root exists, at least
    one database file was located and every one of them was rendered
    without an exception. *)
Theorem completion_is_reported_iff :
  forall now base w,
  exists events,
    console (fst (scan_directory now base w)) = console w ++ events
    /\ (In (Data_extraction_completed (output_file_name now)) events
        <-> snd (scan_directory now base w) = inr tt
            /\ exists b, base = Some b /\ db_files_of b <> []).
Proof.
  intros now base w. unfold scan_directory.
  destruct base as [base|].
  - unfold mkdir_output. cbn [print output_dir console output_files].
    assert (Hgo :
      let w0 := mk_world (console w ++ [Scanning_directory]) Directory (output_files w) in
      let r :=
        match db_files_of base with
        | [] => (print No_database_files_found w0, inr tt)
        | _ :: _ =>
            match
              export_databases base (output_file_name now) (db_files_of base)
                (print (Found_database_files (length (db_files_of base))) w0)
            with
            | (w1, inr _) =>
                (print (Data_extraction_completed (output_file_name now)) w1, inr tt)
            | (w1, inl e) => (w1, inl e)
            end
        end in
      exists events,
        console (fst r) = console w ++ events
        /\ (In (Data_extraction_completed (output_file_name now)) events
            <-> snd r = inr tt
                /\ exists b, Some base = Some b /\ db_files_of b <> [])).
    { intros w0 r. subst r.
      destruct (db_files_of base) as [|d rest] eqn:Hfiles.
      - exists [Scanning_directory; No_database_files_found]. cbn. split.
        + now rewrite <- app_assoc.
        + split.
          * intros [H | [H | []]]; discriminate H.
          * intros (_ & b & Hb & Hne). injection Hb as <-. now rewrite Hfiles in Hne.
      - set (w1 := print _ w0).
        destruct (export_databases_frame base (output_file_name now) (d :: rest) w1)
          as (_ & _ & ev & Hc & Hev).
        assert (Hyes : exists b, Some base = Some b /\ db_files_of b <> [])
          by (exists base; split; [reflexivity | rewrite Hfiles; discriminate]).
        destruct (export_databases base (output_file_name now) (d :: rest) w1)
          as [w2 [e|u]]; cbn [fst snd] in *.
        + exists ([Scanning_directory; Found_database_files (length (d :: rest))] ++ ev).
          split.
          * rewrite Hc. unfold w1, w0, print. cbn [console]. now rewrite <- !app_assoc.
          * split; [|intros [H _]; discriminate H].
            intros [H | [H | H]]; try discriminate H.
            now apply database_events_not_completed in H.
        + exists ([Scanning_directory; Found_database_files (length (d :: rest))]
                  ++ ev ++ [Data_extraction_completed (output_file_name now)]).
          unfold print. cbn [console]. split.
          * rewrite Hc. unfold w1, w0, print. cbn [console]. now rewrite <- !app_assoc.
          * split; [intros _; split; [reflexivity | exact Hyes]|].
            intros _. apply in_or_app. right. apply in_or_app. right.
            simpl. auto. }
    destruct (output_dir w) eqn:Hdir.
    + exact Hgo.
    + exact Hgo.
    + exists [Scanning_directory]. cbn. split; [reflexivity|]. split.
      * intros [H | []]. discriminate H.
      * intros [H _]. discriminate H.
  - exists [Scanning_directory; Directory_does_not_exist]. cbn. split.
    + now rewrite <- app_assoc.
    + split.
      * intros [H | [H | []]]; discriminate H.
      * intros (_ & b & Hb & _). discriminate Hb.
Qed.

End ChatHistory.

(* ------------------------------------------------------------------ *)
(** ** Worked examples *)

(** C2 on the rows of [db_mixed]: the array row adds two prompts, the
    mapping row of [db_prompt] adds one. *)
Lemma prompt_extraction_counts_witness :
  fetch_rows db_mixed item_table
  = Some ([row_chat; row_not_json; row_not_utf8; row_prompt] ++ row_prompt_list :: [])
  /\ parse_value decode_utf8 loads_examples (snd row_prompt_list) = Some val_prompt_list
  /\ length (filter has_text_description items_prompt_list) = 2
  /\ (exists produced,
         extract_prompts decode_utf8 loads_examples db_mixed item_table
         = prompts_of_rows decode_utf8 loads_examples
             [row_chat; row_not_json; row_not_utf8; row_prompt]
           ++ produced ++ prompts_of_rows decode_utf8 loads_examples []
         /\ produced = map text_description (filter has_text_description items_prompt_list)
         /\ length produced = 2)
  /\ extract_prompts decode_utf8 loads_examples db_prompt item_table
     = prompts_of_rows decode_utf8 loads_examples []
       ++ [text_description val_prompt]
       ++ prompts_of_rows decode_utf8 loads_examples [].
Proof.
  split; [reflexivity|]. split; [reflexivity|]. split; [reflexivity|]. split.
  - exact (proj1 (@prompt_extraction_counts decode_utf8 loads_examples
                    db_mixed item_table
                    [row_chat; row_not_json; row_not_utf8; row_prompt]
                    (fst row_prompt_list) (snd row_prompt_list) []
                    val_prompt_list eq_refl eq_refl)
             items_prompt_list 2 eq_refl eq_refl).
  - exact (proj2 (@prompt_extraction_counts decode_utf8 loads_examples
                    db_prompt item_table [] (fst row_prompt) (snd row_prompt) []
                    val_prompt eq_refl eq_refl)
             _ eq_refl eq_refl).
Defined.


(** The bytes of [row_not_utf8] do not decode, and the row is malformed
    too. *)
Example not_utf8_is_malformed :
  malformed decode_utf8 loads_examples (snd row_not_utf8)
  /\ extract_prompts decode_utf8 loads_examples db_mixed item_table
     = [PStr (lit " do X "); PStr (lit "a"); PStr (lit "b")].
Proof. split; [apply undecodable; reflexivity | reflexivity]. Qed.

(** C1 as it is stated fails on [{"conversation":[{"text":5}]}]: the row
    yields a record of one message, and rendering the record writes the key
    line, then raises at [strip] and writes no line for the message. *)
Lemma number_text_breaks_rendering :
  parse_value decode_utf8 loads_examples (snd row_chat_number_text)
  = Some (PDict [(lit "conversation", PList [PDict [(lit "text", PInt 5)]])])
  /\ conversations_of_rows decode_utf8 loads_examples [row_chat_number_text]
     = [record_number_text]
  /\ write_conversation repr_blank repr_blank record_number_text []
     = (lit "## Key: chat" ++ nl, inl AttributeError).
Proof. repeat split. Qed.

(** C1 (amended) on the chat row of [db_mixed]. *)
Lemma conversation_extracted_and_rendered_witness :
  fetch_rows db_mixed item_table
  = Some ([] ++ row_chat :: [row_not_json; row_not_utf8; row_prompt; row_prompt_list])
  /\ parse_value decode_utf8 loads_examples (snd row_chat) = Some val_chat
  /\ dict_get [(lit "conversation", PList messages_chat)] (lit "conversation")
     = Some (PList messages_chat)
  /\ encodable (format_key repr_blank repr_blank (fst row_chat)) = true
  /\ forallb message_ok messages_chat = true
  /\ extract_conversations decode_utf8 loads_examples db_mixed item_table
     = [record_chat]
  /\ write_conversation repr_blank repr_blank record_chat []
     = (lit "## Key: chat" ++ nl
        ++ lit "**User**: hi" ++ nl
        ++ lit "**Assistant**: hello" ++ nl
        ++ nl ++ lit "---" ++ nl, inr tt).
Proof.
  destruct (@conversation_extracted_and_rendered decode_utf8 loads_examples
              repr_blank repr_blank db_mixed item_table [] (fst row_chat)
              (snd row_chat) [row_not_json; row_not_utf8; row_prompt; row_prompt_list]
              [(lit "conversation", PList messages_chat)] messages_chat
              eq_refl eq_refl eq_refl)
    as (Hextract & Hrender & _).
  do 5 (split; [reflexivity|]). split.
  - rewrite Hextract. reflexivity.
  - unfold record_chat. change (SqlText (lit "chat")) with (fst row_chat).
    rewrite (Hrender eq_refl eq_refl []). reflexivity.
Defined.

(** C3 as it is stated fails on [{"textDescription":" do X "}]: the stored
    prompt keeps its blanks. *)
Lemma stored_prompt_is_not_trimmed :
  prompts_of_rows decode_utf8 loads_examples [row_prompt] = [PStr (lit " do X ")]
  /\ strip (lit " do X ") = lit "do X"
  /\ ~ trimmed (lit " do X ").
Proof.
  split; [reflexivity|]. split; [reflexivity|].
  intros [H _]. discriminate H.
Qed.

(** C3 (amended) on the same row: stored with its blanks, written without. *)
Lemma prompt_trimmed_when_rendered_witness :
  parse_value decode_utf8 loads_examples (snd row_prompt) = Some val_prompt
  /\ dict_get [(lit "textDescription", PStr (lit " do X "))] (lit "textDescription")
     = Some (PStr (lit " do X "))
  /\ encodable (lit " do X ") = true
  /\ row_prompts decode_utf8 loads_examples row_prompt = [PStr (lit " do X ")]
  /\ write_prompt (1, PStr (lit " do X ")) [] = (lit "1. do X" ++ nl, inr tt)
  /\ trimmed (strip (lit " do X ")).
Proof.
  destruct (prompt_trimmed_when_rendered decode_utf8 loads_examples)
    as (Hstored & _ & Hwritten & Htrimmed).
  do 3 (split; [reflexivity|]). split; [|split].
  - exact (Hstored (fst row_prompt) (snd row_prompt) _ _ eq_refl eq_refl).
  - rewrite (Hwritten 1 (lit " do X ") [] eq_refl). reflexivity.
  - apply Htrimmed.
Defined.

(** C5 as it is stated fails on [{"conversation":[5]}]: the entry has no
    [get], and the exception leaves [save_to_markdown]. *)
Lemma number_entry_breaks_rendering :
  conversations_of_rows decode_utf8 loads_examples [row_chat_number_entry]
  = [record_number_entry]
  /\ save_to_markdown repr_blank repr_blank [] [record_number_entry] []
     = (lit "# Conversations" ++ nl ++ lit "## Key: chat" ++ nl, inl AttributeError).
Proof. repeat split. Qed.

(** C5 (amended): the sparse messages of [record_defaults] render with the
    defaults, and [record_number_entry] makes [save_to_markdown] raise. *)
Lemma malformed_entries_raise_witness :
  conversations_of_rows decode_utf8 loads_examples
    [row_chat_defaults; row_chat_number_entry]
  = [record_defaults; record_number_entry]
  /\ encodable (format_key repr_blank repr_blank (conv_key record_defaults)) = true
  /\ forallb message_ok messages_defaults = true
  /\ write_conversation repr_blank repr_blank record_defaults []
     = (lit "## Key: sparse" ++ nl
        ++ lit "**User**: " ++ nl
        ++ lit "**Assistant**: ok" ++ nl
        ++ lit "**Assistant**: " ++ nl
        ++ nl ++ lit "---" ++ nl, inr tt)
  /\ forallb message_ok [PInt 5] = false
  /\ exists text e,
       save_to_markdown repr_blank repr_blank [] [record_chat; record_number_entry] []
       = (text, inl e).
Proof.
  do 3 (split; [reflexivity|]). split; [|split; [reflexivity|]].
  - rewrite (proj1 (@malformed_entries_raise repr_blank repr_blank record_defaults
                      eq_refl) messages_defaults [] eq_refl eq_refl).
    reflexivity.
  - apply (proj2 (proj2 (@malformed_entries_raise repr_blank repr_blank
                           record_number_entry eq_refl))).
    + right. now left.
    + right. exists [PInt 5]. split; reflexivity.
Defined.

(** C6 as it is stated fails on [tree_none]: nothing matches, no output
    file is written, and yet the directory [output], absent before the run,
    is there after it. *)
Lemma no_database_files_still_creates_output_dir :
  db_files_of tree_none = []
  /\ output_dir world0 = Absent
  /\ scan_directory decode_utf8 loads_examples repr_blank repr_blank now0
       (Some tree_none) world0
     = (mk_world [Scanning_directory; No_database_files_found] Directory [], inr tt).
Proof. repeat split. Qed.

(** C6 (amended) on [tree_none]. *)
Lemma no_database_files_run_witness :
  (forall p, reaches tree_none p ->
             file_name p <> lit "state.vscdb"
             /\ file_name p <> lit "state.vscdb.backup")
  /\ output_dir world0 <> NotDirectory
  /\ scan_directory decode_utf8 loads_examples repr_blank repr_blank now0
       (Some tree_none) world0
     = (mk_world (console world0 ++ [Scanning_directory; No_database_files_found])
          Directory (output_files world0), inr tt).
Proof.
  assert (Hnone : forall p, reaches tree_none p ->
                            file_name p <> lit "state.vscdb"
                            /\ file_name p <> lit "state.vscdb.backup").
  { intros p Hp.
    assert (Hin : ~ In p (db_files_of tree_none)) by (simpl; tauto).
    split; intros Hn; apply Hin, db_files_spec; auto. }
  assert (Hout : output_dir world0 <> NotDirectory) by discriminate.
  split; [exact Hnone|]. split; [exact Hout|].
  exact (@no_database_files_run decode_utf8 loads_examples repr_blank repr_blank
           now0 tree_none world0 Hnone Hout).
Defined.

(** C9 on [tree_two]: two database files, two chunks. *)
Lemma prompt_numbering_restarts_witness :
  snd (export_databases decode_utf8 loads_examples repr_blank repr_blank tree_two
         (output_file_name now0) (db_files_of tree_two) world0) = inr tt
  /\ exists chunks,
       content_of
         (fst (export_databases decode_utf8 loads_examples repr_blank repr_blank
                 tree_two (output_file_name now0) (db_files_of tree_two) world0))
         (output_file_name now0)
       = content_of world0 (output_file_name now0) ++ concat chunks
       /\ length chunks = length (db_files_of tree_two).
Proof.
  assert (Hrun : snd (export_databases decode_utf8 loads_examples repr_blank
                        repr_blank tree_two (output_file_name now0)
                        (db_files_of tree_two) world0) = inr tt)
    by (vm_compute; reflexivity).
  split; [exact Hrun|].
  destruct (@prompt_numbering_restarts decode_utf8 loads_examples repr_blank repr_blank
              tree_two (output_file_name now0) (db_files_of tree_two) world0)
    as (chunks & Hcontent & _ & Hlength).
  exists chunks. split; [exact Hcontent | exact (Hlength Hrun)].
Defined.

(** The document of that run: the second file is numbered from 1 again
    although the first one had three prompts. *)
Example two_files_document :
  content_of
    (fst (scan_directory decode_utf8 loads_examples repr_blank repr_blank now0
            (Some tree_two) world0))
    (lit "conversations_and_prompts_20240101_120000.md")
  = lit "# Conversations" ++ nl
    ++ lit "## Key: chat" ++ nl
    ++ lit "**User**: hi" ++ nl
    ++ lit "**Assistant**: hello" ++ nl
    ++ nl ++ lit "---" ++ nl
    ++ nl ++ lit "# Prompts" ++ nl
    ++ lit "1. do X" ++ nl
    ++ lit "2. a" ++ nl
    ++ lit "3. b" ++ nl
    ++ lit "# No conversations found." ++ nl
    ++ nl ++ lit "# Prompts" ++ nl
    ++ lit "1. do X" ++ nl.
Proof. vm_compute. reflexivity. Qed.

(** C10 on [tree_abort]: the number stored as a prompt ends the run in
    [AttributeError] while the first database file is rendered; the second
    one is never scanned and no completion is printed. *)
Lemma non_string_prompt_aborts_run_witness :
  parse_value decode_utf8 loads_examples (snd row_prompt_number) = Some val_prompt_number
  /\ prompts_step decode_utf8 loads_examples [] row_prompt_number = [PInt 5]
  /\ In [lit "state.vscdb"] (db_files_of tree_abort)
  /\ In (PInt 5)
       (snd (scan_database decode_utf8 loads_examples
               (open_database tree_abort [lit "state.vscdb"])))
  /\ (forall s, PInt 5 <> PStr s)
  /\ (exists w' e,
         scan_directory decode_utf8 loads_examples repr_blank repr_blank now0
           (Some tree_abort) world0 = (w', inl e))
  /\ scan_directory decode_utf8 loads_examples repr_blank repr_blank now0
       (Some tree_abort) world0
     = (mk_world
          [Scanning_directory; Found_database_files 2;
           Scanning_database [lit "state.vscdb"];
           Searching_for_conversations item_table;
           Searching_for_prompts item_table]
          Directory
          [(output_file_name now0,
            lit "# No conversations found." ++ nl ++ nl ++ lit "# Prompts" ++ nl)],
        inl AttributeError).
Proof.
  destruct (non_string_prompt_aborts_run decode_utf8 loads_examples
              repr_blank repr_blank)
    as (Hstored & _ & Hrun).
  assert (Hfile : In [lit "state.vscdb"] (db_files_of tree_abort)) by (now left).
  assert (Hin : In (PInt 5)
                  (snd (scan_database decode_utf8 loads_examples
                          (open_database tree_abort [lit "state.vscdb"]))))
    by (now left).
  assert (Hv : forall s, PInt 5 <> PStr s) by discriminate.
  split; [reflexivity|]. split.
  { exact (Hstored (fst row_prompt_number) (snd row_prompt_number) _ _
             eq_refl eq_refl). }
  split; [exact Hfile|]. split; [exact Hin|]. split; [exact Hv|]. split.
  - exact (Hrun now0 tree_abort world0 _ _ Hfile Hin Hv).
  - vm_compute. reflexivity.
Defined.

(* ------------------------------------------------------------------ *)
(** ** Worked examples for the further properties *)

(** Distinct literals, compared after evaluation. *)
Ltac literals_differ :=
  let H := fresh in
  intros H; vm_compute in H;
  repeat match type of H with
         | _ \/ _ => destruct H as [H | H]
         end;
  solve [discriminate H | destruct H].

(** The trees of the examples list no name twice. *)
Ltac tree_well_formed :=
  repeat first
    [ apply well_formed_file
    | apply well_formed_dir;
      [ cbn [map node_name]; repeat (constructor; [literals_differ|]); constructor
      | let e := fresh in
        let He := fresh in
        intros e He; cbn [In] in He;
        repeat match type of He with
               | _ \/ _ => destruct He as [He | He]
               end;
        [ subst e .. | destruct He ] ] ].

(** [db_long] holds 1001 rows: the prompt in the last one is never read. *)
Lemma only_first_thousand_rows_are_read_witness :
  db_rows db_long item_table = Some (repeat row_chat 1000 ++ [row_prompt])
  /\ length (repeat row_chat 1000) = 1000
  /\ extract_conversations decode_utf8 loads_examples db_long item_table
     = conversations_of_rows decode_utf8 loads_examples (repeat row_chat 1000)
  /\ extract_prompts decode_utf8 loads_examples db_long item_table
     = prompts_of_rows decode_utf8 loads_examples (repeat row_chat 1000)
  /\ prompts_of_rows decode_utf8 loads_examples (repeat row_chat 1000) = []
  /\ row_prompts decode_utf8 loads_examples row_prompt = [PStr (lit " do X ")].
Proof.
  assert (Hrows : db_rows db_long item_table
                  = Some (repeat row_chat 1000 ++ [row_prompt])) by reflexivity.
  assert (Hlen : length (repeat row_chat 1000) = 1000) by apply repeat_length.
  destruct (@only_first_thousand_rows_are_read decode_utf8 loads_examples db_long
              item_table (repeat row_chat 1000) [row_prompt] Hrows Hlen)
    as [Hc Hp].
  split; [exact Hrows|]. split; [exact Hlen|]. split; [exact Hc|].
  split; [exact Hp|]. split; vm_compute; reflexivity.
Defined.

(** [db_broken_table] has a table without the two columns before
    [ItemTable]: the prompt of [ItemTable] is found all the same. *)
Lemma failing_table_is_passed_over_witness :
  db_rows db_broken_table (lit "sqlite_sequence") = None
  /\ scan_database decode_utf8 loads_examples (Some db_broken_table)
     = scan_database decode_utf8 loads_examples
         (Some (mk_database ([] ++ [item_table]) (db_rows db_broken_table)))
  /\ scan_database decode_utf8 loads_examples (Some db_broken_table)
     = ([], [PStr (lit " do X ")]).
Proof.
  assert (Hnone : db_rows db_broken_table (lit "sqlite_sequence") = None)
    by reflexivity.
  split; [exact Hnone|]. split.
  - exact (proj1 (@failing_table_is_passed_over decode_utf8 loads_examples
                    [] (lit "sqlite_sequence") [item_table]
                    (db_rows db_broken_table) Hnone)).
  - reflexivity.
Defined.

(** Empty bytes decode to the empty text, which is not parsed. *)
Lemma falsy_and_numeric_values_yield_nothing_witness :
  decode_utf8 [] = Some []
  /\ row_conversations decode_utf8 loads_examples (SqlText (lit "k"), SqlBlob []) = []
  /\ row_prompts decode_utf8 loads_examples (SqlText (lit "k"), SqlBlob []) = []
  /\ row_prompts decode_utf8 loads_examples (SqlText (lit "k"), SqlInt 7) = [].
Proof.
  destruct (falsy_and_numeric_values_yield_nothing decode_utf8 loads_examples
              (SqlText (lit "k")))
    as (_ & _ & _ & _ & Hint & _ & Hblob).
  split; [reflexivity|].
  destruct (Hblob [] eq_refl) as [Hc Hp].
  split; [exact Hc|]. split; [exact Hp|]. exact (proj2 (Hint 7%Z)).
Defined.

(** The document of one database file with a conversation and two
    prompts. *)
Lemma save_to_markdown_document_witness :
  forallb (renderable repr_blank repr_blank) [record_chat] = true
  /\ forallb prompt_ok [PStr (lit " do X "); PStr (lit "b")] = true
  /\ save_to_markdown repr_blank repr_blank (lit "# No conversations found." ++ nl)
       [record_chat] [PStr (lit " do X "); PStr (lit "b")]
     = (lit "# No conversations found." ++ nl
        ++ lit "# Conversations" ++ nl
        ++ lit "## Key: chat" ++ nl
        ++ lit "**User**: hi" ++ nl
        ++ lit "**Assistant**: hello" ++ nl
        ++ nl ++ lit "---" ++ nl
        ++ nl ++ lit "# Prompts" ++ nl
        ++ lit "1. do X" ++ nl
        ++ lit "2. b" ++ nl, inr tt).
Proof.
  split; [reflexivity|]. split; [reflexivity|].
  rewrite (proj1 (@save_to_markdown_document repr_blank repr_blank
                    (lit "# No conversations found." ++ nl) [record_chat]
                    [PStr (lit " do X "); PStr (lit "b")] eq_refl eq_refl)).
  vm_compute. reflexivity.
Defined.

(** A [conversation] that is the empty string renders, one that is [hi]
    does not. *)
Lemma conversation_field_shapes_witness :
  encodable (format_key repr_blank repr_blank (SqlText (lit "chat"))) = true
  /\ snd (write_conversation repr_blank repr_blank record_empty_text []) = inr tt
  /\ snd (write_conversation repr_blank repr_blank record_text []) <> inr tt
  /\ write_conversation repr_blank repr_blank
       (mk_conversation (SqlText (lit "chat")) PNone) []
     = ([] ++ lit "## Key: " ++ lit "chat" ++ nl, inl TypeError).
Proof.
  destruct (@conversation_field_shapes repr_blank repr_blank
              (SqlText (lit "chat")) [] eq_refl)
    as (Hstr & _ & Hnone & _).
  split; [reflexivity|]. split; [|split].
  - apply (Hstr []). reflexivity.
  - intros H. apply (Hstr (lit "hi")) in H. discriminate H.
  - apply (Hnone PNone). reflexivity.
Defined.

(** [tree_two] lists no name twice, and its two database files are
    distinct paths. *)
Lemma locator_returns_each_path_once_witness :
  well_formed tree_two /\ NoDup (db_files_of tree_two).
Proof.
  assert (Hwf : well_formed tree_two) by (unfold tree_two; tree_well_formed).
  split; [exact Hwf | exact (locator_returns_each_path_once Hwf)].
Defined.

(** In [tree_unreadable] the locator finds a directory named
    [state.vscdb], which opens to nothing. *)
Lemma located_paths_resolve_witness :
  well_formed tree_unreadable
  /\ In [lit "state.vscdb"] (db_files_of tree_unreadable)
  /\ exists e,
       resolve tree_unreadable [lit "state.vscdb"] = Some e
       /\ (node_name e = lit "state.vscdb" \/ node_name e = lit "state.vscdb.backup")
       /\ open_database tree_unreadable [lit "state.vscdb"]
          = match e with
            | File _ content => content
            | Dir _ _ => None
            end.
Proof.
  assert (Hwf : well_formed tree_unreadable)
    by (unfold tree_unreadable; tree_well_formed).
  assert (Hin : In [lit "state.vscdb"] (db_files_of tree_unreadable)) by (now left).
  split; [exact Hwf|]. split; [exact Hin|].
  exact (@located_paths_resolve tree_unreadable [lit "state.vscdb"] Hwf Hin).
Defined.

(** The unreadable file of [tree_unreadable] leaves the marker line. *)
Lemma unopenable_database_leaves_marker_witness :
  open_database tree_unreadable [lit "ws"; lit "state.vscdb"] = None
  /\ export_database decode_utf8 loads_examples repr_blank repr_blank tree_unreadable
       (output_file_name now0) [lit "ws"; lit "state.vscdb"] world0
     = (mk_world
          (console world0
           ++ [Scanning_database [lit "ws"; lit "state.vscdb"];
               Error_scanning_database [lit "ws"; lit "state.vscdb"]])
          (output_dir world0)
          (file_store (output_files world0) (output_file_name now0)
             (content_of world0 (output_file_name now0)
              ++ lit "# No conversations found." ++ nl)),
        inr tt).
Proof.
  split; [reflexivity|].
  exact (@unopenable_database_leaves_marker decode_utf8 loads_examples
           repr_blank repr_blank tree_unreadable (output_file_name now0)
           [lit "ws"; lit "state.vscdb"] world0 eq_refl).
Defined.

(** The run over [tree_unreadable]: two entries cannot be opened, the third
    is exported, and the run completes. *)
Example unreadable_files_document :
  db_files_of tree_unreadable
  = [[lit "state.vscdb"]; [lit "ws"; lit "state.vscdb"];
     [lit "ws"; lit "state.vscdb.backup"]]
  /\ snd (scan_directory decode_utf8 loads_examples repr_blank repr_blank now0
            (Some tree_unreadable) world0) = inr tt
  /\ content_of
       (fst (scan_directory decode_utf8 loads_examples repr_blank repr_blank now0
               (Some tree_unreadable) world0))
       (output_file_name now0)
     = lit "# No conversations found." ++ nl
       ++ lit "# No conversations found." ++ nl
       ++ lit "# No conversations found." ++ nl
       ++ nl ++ lit "# Prompts" ++ nl
       ++ lit "1. do X" ++ nl.
Proof. repeat split; vm_compute; reflexivity. Qed.
